(** * plrap: a browsing and discovery dashboard over a catalog of albums

    Shallow embedding of [app.py].  The script is a Streamlit page over a
    pandas DataFrame; the embedding keeps its shape:

    - a DataFrame is the list of its rows, in order; a column is the list
      of one field over the rows; a missing value ([pd.NA], [NaN], [None])
      is [None]; the frame without any column, which the loader returns
      when it fails, is told apart from a frame without rows ([Frame]);
    - a boolean mask is a [list bool], combined elementwise and used to
      select rows, as in [data[m1 & m2 & ~m3]];
    - Python exceptions are an error monad ([result]);
    - the regular expression engine behind [Series.str.contains] and the
      pseudo-random generator behind [DataFrame.sample] are libraries the
      script calls: they are parameters of the model ([ReEngine],
      [Generator]), and a small instance of each is defined to run it;
    - a Python [str] is a sequence of code points; the model covers the
      code points below 256 (Latin-1), which is what [Ascii.ascii]
      enumerates. *)

From Stdlib Require Import String Ascii ZArith List Bool Lia.
From Stdlib Require Import QArith Sorted Permutation.
Import ListNotations.
Local Open Scope string_scope.
Local Open Scope Z_scope.

Set Implicit Arguments.

(** ** Exceptions *)

Inductive exn : Type :=
| ValueError   (* int() on a bad literal, sample larger than population *)
| ReError      (* re.error: the pattern does not compile *)
| IndexError   (* positional access out of bounds *)
| IOError      (* read_csv could not read the file *)
| KeyError.    (* a column that the frame does not have *)

Inductive result (A : Type) : Type :=
| Ok (a : A)
| Raise (e : exn).

Arguments Ok {A} a.
Arguments Raise {A} e.

Definition bind {A B : Type} (c : result A) (k : A -> result B) : result B :=
  match c with
  | Ok a => k a
  | Raise e => Raise e
  end.

Definition fmap {A B : Type} (f : A -> B) (c : result A) : result B :=
  bind c (fun a => Ok (f a)).

Notation "x <- c ;; k" := (bind c (fun x => k))
  (at level 61, c at next level, right associativity).
Notation "' p <- c ;; k" := (bind c (fun x => let p := x in k))
  (at level 61, p pattern, c at next level, right associativity).

Fixpoint mapM {A B : Type} (f : A -> result B) (l : list A) : result (list B) :=
  match l with
  | [] => Ok []
  | a :: l' => b <- f a ;; bs <- mapM f l' ;; Ok (b :: bs)
  end.

(** ** Rows and frames *)

(** One row of the frame: the seven columns of the CSV file, and the
    derived column ['decade'] once the statistics tab has added it
    ([decade = None] while the frame has no such column). *)
Record Row : Type := mkRow {
  artist      : option string;
  album_title : option string;
  year        : option Z;
  label       : option string;
  track_count : option Z;
  tracklist   : option string;
  thumb       : option string;
  decade      : option (option Z)
}.

Definition DataFrame : Type := list Row.

(** What the variable [data] of the script holds (line 89): a frame with
    the columns of the file, which may have no row at all, or the frame
    [pd.DataFrame()] that [load_data] returns from its [except] branch,
    which has no column at all.  A list of rows stands for a frame of the
    first kind. *)
Inductive Frame : Type :=
| NoColumns
| Columns (rows : list Row).

#[warning="-uniform-inheritance"]
Coercion Columns : list >-> Frame.

(** [data['c']] *)
Definition col {A : Type} (field : Row -> A) (data : DataFrame) : list A :=
  map field data.

(** The seven fields a row is loaded with. *)
Definition loaded_fields (r : Row) :=
  (artist r, album_title r, year r, label r, track_count r, tracklist r, thumb r).

(** ** Python's [str] methods used by the loader *)

Definition comma : ascii := ","%char.

(** [x.replace(',', '')] *)
Fixpoint replace_comma (x : string) : string :=
  match x with
  | EmptyString => EmptyString
  | String c x' =>
      if Ascii.eqb c comma then replace_comma x' else String c (replace_comma x')
  end.

(** The code points with Unicode property Nd (decimal digit): below 256
    these are '0' .. '9'. *)
Definition decimal_value (c : ascii) : option Z :=
  let n := Z.of_nat (nat_of_ascii c) in
  if (48 <=? n) && (n <=? 57) then Some (n - 48) else None.

(** The code points [str.isdigit] accepts (Numeric_Type Decimal or Digit):
    below 256 these are '0' .. '9' and the superscripts U+00B2, U+00B3 and
    U+00B9. *)
Definition isdigit_char (c : ascii) : bool :=
  let n := Z.of_nat (nat_of_ascii c) in
  ((48 <=? n) && (n <=? 57)) || (n =? 178) || (n =? 179) || (n =? 185).

Fixpoint all_chars (p : ascii -> bool) (x : string) : bool :=
  match x with
  | EmptyString => true
  | String c x' => p c && all_chars p x'
  end.

(** [x.isdigit()]: every character is a digit and there is at least one. *)
Definition isdigit (x : string) : bool :=
  match x with
  | EmptyString => false
  | _ => all_chars isdigit_char x
  end.

Fixpoint int_digits (acc : Z) (x : string) : result Z :=
  match x with
  | EmptyString => Ok acc
  | String c x' =>
      match decimal_value c with
      | Some d => int_digits (10 * acc + d) x'
      | None => Raise ValueError
      end
  end.

(** The longest text that CPython converts to an integer
    ([sys.int_info.default_max_str_digits]). *)
Definition max_str_digits : nat := 4300.

(** [int(x)] on a string without sign, blanks or underscores (which is all
    [isdigit] lets through): decimal digits only, and no more than
    [max_str_digits] of them, leading zeros counted; ValueError otherwise.
    Python integers are unbounded.  Among the code points below 256, which
    are the texts of this model, the decimal digits are '0' .. '9'. *)
Definition int (x : string) : result Z :=
  match x with
  | EmptyString => Raise ValueError
  | _ =>
      if (max_str_digits <? String.length x)%nat then Raise ValueError
      else int_digits 0 x
  end.

(** ** load_data *)

(** The lambda applied to the ['year'] column (line 36):
    [int(x.replace(',', '')) if pd.notna(x) and x.replace(',', '').isdigit()
     else None] *)
Definition year_lambda (x : option string) : result (option Z) :=
  match x with
  | Some s =>
      if isdigit (replace_comma s)
      then n <- int (replace_comma s) ;; Ok (Some n)
      else Ok None
  | None => Ok None
  end.

(** A row as [pd.read_csv] hands it over: ['year'] is still text. *)
Record RawRow : Type := mkRaw {
  raw_artist      : option string;
  raw_album_title : option string;
  raw_year        : option string;
  raw_label       : option string;
  raw_track_count : option Z;
  raw_tracklist   : option string;
  raw_thumb       : option string
}.

Definition with_year (r : RawRow) (y : option Z) : Row :=
  mkRow (raw_artist r) (raw_album_title r) y (raw_label r)
        (raw_track_count r) (raw_tracklist r) (raw_thumb r) None.

(** [data['year'] = data['year'].apply(...)] *)
Definition apply_year (raw : list RawRow) : result DataFrame :=
  years <- mapM year_lambda (map raw_year raw) ;;
  Ok (map (fun p => with_year (fst p) (snd p)) (combine raw years)).

(** What the loader tells the user: [st.info] with the number of records,
    or [st.error] with the exception. *)
Inductive Notice : Type :=
| Info (records : nat)
| Error (e : exn).

(** [load_data()]: [read_csv] is the outcome of [pd.read_csv]; any exception
    in the [try] block ends in the [except] branch, which returns the empty
    frame [pd.DataFrame()]. *)
Definition load_data (read_csv : result (list RawRow)) : DataFrame * Notice :=
  match (raw <- read_csv ;; apply_year raw) with
  | Ok data => (data, Info (length data))
  | Raise e => ([], Error e)
  end.

(** Line 89, [data = load_data()]: the loader hands back the frame
    without columns exactly when it reports an error. *)
Definition script_data (loaded : DataFrame * Notice) : Frame :=
  match snd loaded with
  | Info _ => Columns (fst loaded)
  | Error _ => NoColumns
  end.

(** ** Pagination (lines 124-128) *)

Definition results_per_page : Z := 20.

(** [-(-len(filtered_data) // results_per_page)]; Python's [//] rounds
    towards minus infinity, as [Z.div] does. *)
Definition total_pages (len_filtered : Z) : Z :=
  - ((- len_filtered) / results_per_page).

(** The arguments of [st.slider("Strona:", 1, total_pages, 1)]:
    lowest value, highest value, initial value. *)
Definition page_slider (len_filtered : Z) : Z * Z * Z :=
  (1, total_pages len_filtered, 1).

Definition start_idx (page : Z) : Z := (page - 1) * results_per_page.
Definition end_idx (page : Z) : Z := start_idx page + results_per_page.

(** [l[i:j]] for bounds that are not negative; a slice never raises, it
    stops at the end of the list. *)
Definition slice {A : Type} (l : list A) (i j : nat) : list A :=
  firstn (j - i) (skipn i l).

(** A slice bound as Python reads it: a negative bound counts from the
    end, and every bound is brought back into [0, len]. *)
Definition slice_bound (len i : Z) : Z :=
  if i <? 0 then Z.max (i + len) 0 else Z.min i len.

(** [filtered_data.iloc[start:stop]] *)
Definition iloc_slice {A : Type} (l : list A) (start stop : Z) : list A :=
  let len := Z.of_nat (length l) in
  slice l (Z.to_nat (slice_bound len start)) (Z.to_nat (slice_bound len stop)).

(** ** Columns, masks and row selection *)

(** [Series.between(left, right)] with its default [inclusive="both"]:
    [(self >= left) & (self <= right)]; a comparison with a missing value
    is False. *)
Definition ge (y : option Z) (left : Z) : bool :=
  match y with Some v => left <=? v | None => false end.

Definition le (y : option Z) (right : Z) : bool :=
  match y with Some v => v <=? right | None => false end.

Definition mask_and (m1 m2 : list bool) : list bool :=
  map (fun p => fst p && snd p) (combine m1 m2).

Definition mask_not (m : list bool) : list bool := map negb m.

Definition between (c : list (option Z)) (left right : Z) : list bool :=
  mask_and (map (fun y => ge y left) c) (map (fun y => le y right) c).

Infix "&&&" := mask_and (at level 40, left associativity).
Notation "~~ m" := (mask_not m) (at level 35, right associativity).

(** [data[mask]]: the rows whose mask entry is True, in order. *)
Definition loc (data : DataFrame) (mask : list bool) : DataFrame :=
  map snd (filter fst (combine mask data)).

(** [data.iloc[idx]] *)
Definition iloc (data : DataFrame) (idx : nat) : result Row :=
  match nth_error data idx with
  | Some r => Ok r
  | None => Raise IndexError
  end.

(** [data.take(positions)] *)
Definition take (data : DataFrame) (positions : list nat) : result DataFrame :=
  mapM (iloc data) positions.

(** A Python string in a condition: true unless empty. *)
Definition truthy (s : string) : bool :=
  match s with EmptyString => false | _ => true end.

(** ** The two libraries the script relies on *)

(** Python's [re], as [Series.str.contains] uses it ([regex=True] is the
    default): [re_valid pat] says that [re.compile(pat)] succeeds, and
    [re_search pat s] that [re.search(pat, s)] finds a match. *)
Record ReEngine : Type := {
  re_valid  : string -> bool;
  re_search : string -> string -> bool
}.

(** NumPy's generator, as [DataFrame.sample] uses it:
    [RandomState_seed s] is [np.random.RandomState(s)], and
    [choice st pop size] is [st.choice(pop, size=size, replace=False)],
    which returns the positions drawn and leaves the generator advanced. *)
Record Generator : Type := {
  RandomState : Type;
  RandomState_seed : Z -> RandomState;
  choice : RandomState -> nat -> nat -> list nat * RandomState
}.

(** [st.cache_data] memoises by argument values. *)
Definition Key : Type := (DataFrame * Z * Z * string)%type.
Definition Cache : Type := list (Key * DataFrame).

Definition Row_eq_dec (r1 r2 : Row) : {r1 = r2} + {r1 <> r2}.
Proof. repeat decide equality. Defined.

Definition Key_eq_dec (k1 k2 : Key) : {k1 = k2} + {k1 <> k2}.
Proof.
  repeat decide equality; apply Row_eq_dec.
Defined.

Fixpoint cache_lookup (k : Key) (c : Cache) : option DataFrame :=
  match c with
  | [] => None
  | (k', v) :: c' => if Key_eq_dec k k' then Some v else cache_lookup k c'
  end.

(** One cell of the calendar: the day (as a day number) and the album
    shown under it, if any. *)
Definition CalendarCell : Type := (Z * option Row)%type.

(** [dates = [today + timedelta(days=i) for i in range(30)]] *)
Definition dates (today : Z) : list Z :=
  map (fun i => today + Z.of_nat i) (seq 0 30).

(** [range(0, stop, step)] *)
Definition range0 (stop step : nat) : list nat :=
  map (fun k => (k * step)%nat) (seq 0 ((stop + step - 1) / step)).

(** [week_data = [dates[i:i + 7] for i in range(0, len(dates), 7)]] *)
Definition week_data (ds : list Z) : list (list Z) :=
  map (fun i => slice ds i (i + 7)) (range0 (length ds) 7).

Definition enumerate {A : Type} (l : list A) : list (nat * A) :=
  combine (seq 0 (length l)) l.

(** The body of the inner loop (lines 78-85): the cell of column [idx]. *)
Definition cell (discover_data : DataFrame) (p : nat * Z) : result CalendarCell :=
  let (idx, date) := p in
  if (idx <? length discover_data)%nat
  then album <- iloc discover_data idx ;; Ok (date, Some album)
  else Ok (date, None).

(** [create_interactive_calendar(discover_data)], with [datetime.now()]
    as second argument: the rows of cells it renders. *)
Definition create_interactive_calendar (discover_data : DataFrame) (today : Z)
  : result (list (list CalendarCell)) :=
  mapM (fun week => mapM (cell discover_data) (enumerate week))
       (week_data (dates today)).

(** ** Statistics *)

(** [data['decade'] = (data['year'] // 10) * 10] *)
Definition floordiv (c : list (option Z)) (k : Z) : list (option Z) :=
  map (option_map (fun v => v / k)) c.

Definition times (c : list (option Z)) (k : Z) : list (option Z) :=
  map (option_map (fun v => v * k)) c.

Definition set_decade (r : Row) (d : option Z) : Row :=
  mkRow (artist r) (album_title r) (year r) (label r)
        (track_count r) (tracklist r) (thumb r) (Some d).

Definition assign_decade (data : DataFrame) : DataFrame :=
  map (fun p => set_decade (fst p) (snd p))
      (combine data (times (floordiv (col year data) 10) 10)).

(** The keys of [groupby('year')]: the years that occur, each once, in
    ascending order; rows without a year belong to no group. *)
Fixpoint insert_key (y : Z) (keys : list Z) : list Z :=
  match keys with
  | [] => [y]
  | k :: keys' =>
      if y <? k then y :: keys
      else if y =? k then keys
      else k :: insert_key y keys'
  end.

Definition group_keys (c : list (option Z)) : list Z :=
  fold_right (fun y keys => match y with Some v => insert_key v keys | None => keys end)
             [] c.

Definition year_is (y : Z) (r : Row) : bool :=
  match year r with Some v => v =? y | None => false end.

(** The values of a column that are not missing. *)
Fixpoint dropna (c : list (option Z)) : list Z :=
  match c with
  | [] => []
  | Some v :: c' => v :: dropna c'
  | None :: c' => dropna c'
  end.

Definition sum (l : list Z) : Z := fold_right Z.add 0 l.

(** [.mean()] of a nullable integer column: missing values are skipped,
    and the mean of no value at all is missing.  The quotient is kept
    exact here; pandas rounds it to a float. *)
Definition mean (c : list (option Z)) : option Q :=
  match dropna c with
  | [] => None
  | v :: vs => Some (Qmake (sum (v :: vs)) (Pos.of_nat (length (v :: vs))))
  end.

(** [data.groupby('year')['track_count'].mean().reset_index()] *)
Definition avg_tracks_per_year (data : DataFrame) : list (Z * option Q) :=
  map (fun y => (y, mean (col track_count (filter (year_is y) data))))
      (group_keys (col year data)).

(** ** What one run of the script holds *)

(** [memo], the frame [st.cache_data] keeps for [load_data]; [data], the
    copy of it the run works on (line 89); the cache of
    [generate_discover_list]; NumPy's global generator, of state type [G]. *)
Record Env (G : Type) : Type := mkEnv {
  memo : DataFrame;
  data : DataFrame;
  discover_cache : Cache;
  np_random : G
}.

Section Script.

Variable re : ReEngine.
Variable rng : Generator.

(** [c.str.contains(pat, na=False)] *)
Definition contains (pat : string) (x : option string) : bool :=
  match x with
  | Some s => re_search re pat s
  | None => false
  end.

Definition str_contains (c : list (option string)) (pat : string)
  : result (list bool) :=
  if re_valid re pat then Ok (map (contains pat) c) else Raise ReError.

(** Lines 111-118: six masks, joined with [&]; the three texts come from
    the text inputs and the pair of years from the range slider.  This is
    the first place where the script looks into [data]: on the frame
    without columns the first mask already raises. *)
Definition filtered_data (data : Frame) (artist_filter : string)
    (year_filter : Z * Z) (label_filter track_filter : string)
  : result DataFrame :=
  match data with
  | NoColumns => Raise KeyError      (* [data['artist']], before any pattern *)
  | Columns data =>
      m_artist  <- str_contains (col artist data) artist_filter ;;
      m_label   <- str_contains (col label data) label_filter ;;
      m_track   <- str_contains (col tracklist data) track_filter ;;
      m_various <- str_contains (col artist data) "Various" ;;
      m_banned  <- str_contains (col label data) "Dee Jay Mix Club|Nielegal" ;;
      Ok (loc data
            (m_artist
             &&& between (col year data) (fst year_filter) (snd year_filter)
             &&& m_label
             &&& m_track
             &&& ~~ m_various
             &&& ~~ m_banned))
  end.

(** Lines 48-54 of [generate_discover_list]: its local [filtered_data]. *)
Definition discover_filtered (data : DataFrame) (start_year end_year : Z)
    (label_filter : string) : result DataFrame :=
  m_various <- str_contains (col artist data) "Various" ;;
  m_banned  <- str_contains (col label data) "Dee Jay Mix Club|Nielegal" ;;
  let filtered := loc data (between (col year data) start_year end_year
                            &&& ~~ m_various
                            &&& ~~ m_banned) in
  if truthy label_filter
  then m_label <- str_contains (col label filtered) label_filter ;;
       Ok (loc filtered m_label)
  else Ok filtered.

(** [df.sample(n=n, random_state=random_state)], without replacement:
    with an integer seed pandas builds a generator of its own and leaves
    NumPy's global one ([g]) alone; without a seed it draws from [g]. *)
Definition sample (df : DataFrame) (n : nat) (random_state : option Z)
    (g : RandomState rng) : result (DataFrame * RandomState rng) :=
  if (length df <? n)%nat then Raise ValueError
  else
    let (positions, g') :=
      match random_state with
      | Some s => (fst (choice rng (RandomState_seed rng s) (length df) n), g)
      | None => choice rng g (length df) n
      end in
    rows <- take df positions ;;
    Ok (rows, g').

(** [generate_discover_list(data, start_year, end_year, label_filter)];
    [reset_index(drop=True)] renumbers the index labels, which a list of
    rows does not carry. *)
Definition generate_discover_list (g : RandomState rng) (data : DataFrame)
    (start_year end_year : Z) (label_filter : string)
  : result (DataFrame * RandomState rng) :=
  filtered <- discover_filtered data start_year end_year label_filter ;;
  sample filtered (Nat.min 30 (length filtered)) (Some 42) g.

(** The same function under its decorator [@st.cache_data]: a call whose
    arguments are in the cache returns the stored frame and runs nothing;
    otherwise the body runs and its value is stored. *)
Definition cached_generate_discover_list (c : Cache) (g : RandomState rng)
    (data : DataFrame) (start_year end_year : Z) (label_filter : string)
  : result (DataFrame * Cache * RandomState rng) :=
  let k := (data, start_year, end_year, label_filter) in
  match cache_lookup k c with
  | Some v => Ok (v, c, g)
  | None =>
      r <- generate_discover_list g data start_year end_year label_filter ;;
      Ok (fst r, (k, fst r) :: c, snd r)
  end.

(** *** The statements of the script that read or write [data] *)

Inductive Statement : Type :=
| Filter (artist_filter : string) (year_filter : Z * Z)
         (label_filter track_filter : string)
         (page : Z)           (* lines 111-118 and 127-130, [page] from the slider *)
| Decade                                                     (* line 139 *)
| AvgTracks                                                  (* line 161 *)
| Discover (start_year end_year : Z) (label_filter : string)
           (today : Z).                                      (* lines 238-242 *)

Inductive View : Type :=
| Table (rows : DataFrame)
| Chart (points : list (Z * option Q))
| Calendar (weeks : list (list CalendarCell))
| Warning
| Nothing.

Definition exec (s : Statement) (env : Env (RandomState rng))
  : result (Env (RandomState rng) * View) :=
  match s with
  | Filter artist_filter year_filter label_filter track_filter page =>
      rows <- filtered_data (data env) artist_filter year_filter
                            label_filter track_filter ;;
      Ok (env, Table (iloc_slice rows (start_idx page) (end_idx page)))
  | Decade =>
      Ok (mkEnv (memo env) (assign_decade (data env))
                (discover_cache env) (np_random env), Nothing)
  | AvgTracks =>
      Ok (env, Chart (avg_tracks_per_year (data env)))
  | Discover start_year end_year label_filter today =>
      r <- cached_generate_discover_list (discover_cache env) (np_random env)
             (data env) start_year end_year label_filter ;;
      let env' := mkEnv (memo env) (data env) (snd (fst r)) (snd r) in
      match fst (fst r) with
      | [] => Ok (env', Warning)
      | discover_data =>
          weeks <- create_interactive_calendar discover_data today ;;
          Ok (env', Calendar weeks)
      end
  end.

Fixpoint exec_all (ss : list Statement) (env : Env (RandomState rng))
  : result (Env (RandomState rng)) :=
  match ss with
  | [] => Ok env
  | s :: ss' => r <- exec s env ;; exec_all ss' (fst r)
  end.

End Script.

(** ** An engine and a generator to run the model with *)

(** The patterns without any metacharacter but [|]: alternatives of
    literal texts, found by substring search.  Every other pattern is
    turned down. *)
Module Literal.

Definition is_meta (c : ascii) : bool :=
  existsb (Ascii.eqb c) (list_ascii_of_string ".^$*+?{}[]\()").

Fixpoint has_meta (pat : string) : bool :=
  match pat with
  | EmptyString => false
  | String c pat' => is_meta c || has_meta pat'
  end.

Fixpoint alternatives (pat : string) : list string :=
  match pat with
  | EmptyString => [EmptyString]
  | String c pat' =>
      if Ascii.eqb c "|"%char then EmptyString :: alternatives pat'
      else match alternatives pat' with
           | a :: others => String c a :: others
           | [] => [String c EmptyString]
           end
  end.

Fixpoint occurs (needle hay : string) : bool :=
  prefix needle hay
  || match hay with
     | EmptyString => false
     | String _ hay' => occurs needle hay'
     end.

Definition engine : ReEngine := {|
  re_valid := fun pat => negb (has_meta pat);
  re_search := fun pat s => existsb (fun a => occurs a s) (alternatives pat)
|}.

End Literal.

(** A linear congruential generator; [choice] draws positions one by one
    out of the pool of those not drawn yet. *)
Module Lcg.

Definition next (st : Z) : Z := (1103515245 * st + 12345) mod 2147483648.

Fixpoint remove_at (j : nat) (pool : list nat) {struct pool} : list nat :=
  match pool with
  | [] => []
  | p :: pool' =>
      match j with
      | O => pool'
      | S j' => p :: remove_at j' pool'
      end
  end.

Fixpoint draw (size : nat) (st : Z) (pool : list nat) : list nat * Z :=
  match size with
  | O => ([], st)
  | S size' =>
      match pool with
      | [] => ([], st)
      | _ :: _ =>
          let st' := next st in
          let j := Z.to_nat (st' mod Z.of_nat (length pool)) in
          let rest := draw size' st' (remove_at j pool) in
          (nth j pool O :: fst rest, snd rest)
      end
  end.

Definition generator : Generator := {|
  RandomState := Z;
  RandomState_seed := fun s => s mod 2147483648;
  choice := fun st pop size => draw size st (seq 0 pop)
|}.

End Lcg.

(** ** Sample data *)

Definition album (a t : string) (y : Z) (l : string) (n : Z) (tr : string) : Row :=
  mkRow (Some a) (Some t) (Some y) (Some l) (Some n) (Some tr) None None.

Definition kaliber : Row :=
  album "Kaliber 44" "Ksiega Tajemnicza. Prolog" 1996 "S.P. Records" 17
        "Ksiega Tajemnicza|Plus i minus".
Definition paktofonika : Row :=
  album "Paktofonika" "Kinematografia" 2000 "Gigant Records" 19
        "Wejscie|Priorytety|Jestem Bogiem".
Definition molesta : Row :=
  album "Molesta" "Skandal" 1998 "B.E.A.T. Records" 16 "Wiedzialem, ze tak bedzie".
Definition skladanka : Row :=
  album "Various" "Mix" 1999 "Nielegal" 20 "Intro".

(** An album whose track list is missing in the file. *)
Definition no_tracklist : Row :=
  mkRow (Some "Peja") (Some "Na legalu?") (Some 2001) (Some "T1-Teraz")
        (Some 18) None None None.

(** An album whose year and track count are missing. *)
Definition no_year : Row :=
  mkRow (Some "Liroy") (Some "Alboom") None (Some "BMG") None (Some "Scyzoryk")
        None None.

Definition numbered (i : nat) : Row :=
  album "Artysta" "Album" (1991 + Z.of_nat i) "Wytwornia" (Z.of_nat i) "Utwor".

(** A selection of thirty different albums. *)
Definition thirty : DataFrame := map numbered (seq 0 30).

(** ** What a row has to satisfy, in words of rows rather than of masks *)

Definition in_range (y : option Z) (lower upper : Z) : bool :=
  ge y lower && le y upper.

Definition present {A : Type} (x : option A) : bool :=
  match x with Some _ => true | None => false end.

(** The two standing exclusions: compilations and the two labels. *)
Definition standing (re : ReEngine) (r : Row) : bool :=
  negb (contains re "Various" (artist r))
  && negb (contains re "Dee Jay Mix Club|Nielegal" (label r)).

Definition browse_match (re : ReEngine) (artist_filter : string)
    (year_filter : Z * Z) (label_filter track_filter : string) (r : Row) : bool :=
  contains re artist_filter (artist r)
  && in_range (year r) (fst year_filter) (snd year_filter)
  && contains re label_filter (label r)
  && contains re track_filter (tracklist r)
  && negb (contains re "Various" (artist r))
  && negb (contains re "Dee Jay Mix Club|Nielegal" (label r)).

Definition discover_match (re : ReEngine) (start_year end_year : Z)
    (label_filter : string) (r : Row) : bool :=
  in_range (year r) start_year end_year
  && negb (contains re "Various" (artist r))
  && negb (contains re "Dee Jay Mix Club|Nielegal" (label r))
  && (negb (truthy label_filter) || contains re label_filter (label r)).

(** The law a generator has to obey for [replace=False]: as many positions
    as asked for, all different, all inside the population. *)
Definition without_replacement (rng : Generator) : Prop :=
  forall (st : RandomState rng) (pop size : nat),
    (size <= pop)%nat ->
    length (fst (choice rng st pop size)) = size
    /\ NoDup (fst (choice rng st pop size))
    /\ Forall (fun i => (i < pop)%nat) (fst (choice rng st pop size)).

(** The decade of a year: floor(year / 10) * 10, missing with the year. *)
Definition decade_of (y : option Z) : option Z :=
  option_map (fun v => v / 10 * 10) y.

Definition is_Decade (s : Statement) : bool :=
  match s with Decade => true | _ => false end.

(** The digits '0' .. '9'. *)
Definition is_ascii_digit (c : ascii) : bool :=
  match decimal_value c with Some _ => true | None => false end.

(** The one-character text U+00B2, superscript two. *)
Definition superscript_two : string := String "178"%char EmptyString.

(** An album of year [y] whose track count is missing. *)
Definition no_count (y : Z) : Row :=
  mkRow (Some "Nagly Atak Spawacza") (Some "Brat Juzef") (Some y)
        (Some "PH Kopalnia") None None None None.

(** ** More of the script *)

(** Line 130: the rows of the page that the slider returned. *)
Definition page_rows (rows : DataFrame) (page : Z) : DataFrame :=
  iloc_slice rows (start_idx page) (end_idx page).

(** [Series.min()] and [Series.max()]: missing values are skipped, and
    the result is missing ([NaN]) when nothing is left. *)
Definition series_min (c : list (option Z)) : option Z :=
  match dropna c with
  | [] => None
  | v :: vs => Some (fold_right Z.min v vs)
  end.

Definition series_max (c : list (option Z)) : option Z :=
  match dropna c with
  | [] => None
  | v :: vs => Some (fold_right Z.max v vs)
  end.

(** [int(x)] of a float that holds a whole number or [NaN]: [NaN] cannot
    be converted. *)
Definition int_of_float (x : option Z) : result Z :=
  match x with
  | Some v => Ok v
  | None => Raise ValueError
  end.

(** Line 184: the bounds and the initial range of the slider
    [st.slider("Zakres lat do analizy:", int(data['year'].min()),
    int(data['year'].max()), (1990, 2024))]. *)
Definition stats_year_slider (data : DataFrame) : result (Z * Z * (Z * Z)) :=
  lowest  <- int_of_float (series_min (col year data)) ;;
  highest <- int_of_float (series_max (col year data)) ;;
  Ok (lowest, highest, (1990, 2024)).

(** Lines 185-189. *)
Definition filtered_stats (re : ReEngine) (data : DataFrame)
    (filter_year_range : Z * Z) : result DataFrame :=
  m_various <- str_contains re (col artist data) "Various" ;;
  m_banned  <- str_contains re (col label data) "Dee Jay Mix Club|Nielegal" ;;
  Ok (loc data
        (between (col year data) (fst filter_year_range) (snd filter_year_range)
         &&& ~~ m_various
         &&& ~~ m_banned)).

(** [data['decade']] of a frame that has the column. *)
Definition decade_column (data : DataFrame) : list (option Z) :=
  map (fun r => match decade r with Some d => d | None => None end) data.

(** [c.value_counts().sort_index()]: how often each value occurs, missing
    values left out, in ascending order of the values. *)
Definition value_counts_sort_index (c : list (option Z)) : list (Z * nat) :=
  map (fun k => (k, count_occ Z.eq_dec (dropna c) k)) (group_keys c).

(** Lines 139-140: [decade_counts], computed right after the column is
    assigned. *)
Definition decade_counts (data : DataFrame) : list (Z * nat) :=
  value_counts_sort_index (decade_column (assign_decade data)).

(** Line 193, on the frame that holds the column since line 139. *)
Definition filtered_decade_counts (re : ReEngine) (data : DataFrame)
    (filter_year_range : Z * Z) : result (list (Z * nat)) :=
  rows <- filtered_stats re (assign_decade data) filter_year_range ;;
  Ok (value_counts_sort_index (decade_column rows)).

(** The year a raw text stands for when the lambda of line 36 returns. *)
Definition year_or_none (x : option string) : option Z :=
  match year_lambda x with
  | Ok y => y
  | Raise _ => None
  end.

(** A cache of [generate_discover_list] that holds, for every key in it,
    the frame the function returns for these arguments. *)
Definition cache_consistent (re : ReEngine) (rng : Generator) (c : Cache) : Prop :=
  forall (data : DataFrame) (start_year end_year : Z) (label_filter : string)
         (v : DataFrame),
    cache_lookup (data, start_year, end_year, label_filter) c = Some v ->
    forall g : RandomState rng,
      fmap fst (generate_discover_list re rng g data start_year end_year
                  label_filter) = Ok v.

(** An album without a label. *)
Definition no_label : Row :=
  mkRow (Some "Slums Attack") (Some "Slums Attack") (Some 1996) None
        (Some 12) (Some "Mordercy") None None.

(** The patterns the browse filter compiles, and those the discovery
    filter compiles (the label text only when it is not empty). *)
Definition browse_patterns_valid (re : ReEngine) (af lf tf : string) : bool :=
  re_valid re af && re_valid re lf && re_valid re tf
  && re_valid re "Various" && re_valid re "Dee Jay Mix Club|Nielegal".

Definition discover_patterns_valid (re : ReEngine) (lf : string) : bool :=
  re_valid re "Various" && re_valid re "Dee Jay Mix Club|Nielegal"
  && (negb (truthy lf) || re_valid re lf).

(** The sum of the bars of a chart. *)
Definition total (ns : list nat) : nat := fold_right Nat.add 0%nat ns.

(** What the browse filter and the discovery filter ask of a record
    besides its year. *)
Definition browse_others (re : ReEngine) (af lf tf : string) (r : Row) : bool :=
  contains re af (artist r) && contains re lf (label r)
  && contains re tf (tracklist r) && standing re r.

Definition discover_others (re : ReEngine) (lf : string) (r : Row) : bool :=
  standing re r && (negb (truthy lf) || contains re lf (label r)).

(** * Properties *)

(** ** The error monad *)

Lemma bind_Ok {A B : Type} (c : result A) (k : A -> result B) (b : B) :
  bind c k = Ok b -> exists a, c = Ok a /\ k a = Ok b.
Proof.
  destruct c as [a | e]; simpl; intros H.
  - exists a; split; [reflexivity | exact H].
  - discriminate.
Qed.

Lemma mapM_Ok_Forall2 {A B : Type} (f : A -> result B) (l : list A) (bs : list B) :
  mapM f l = Ok bs -> Forall2 (fun a b => f a = Ok b) l bs.
Proof.
  revert bs; induction l as [| a l IH]; simpl; intros bs H.
  - injection H as <-. constructor.
  - apply bind_Ok in H as [b [Hb H]].
    apply bind_Ok in H as [bs' [Hbs H]].
    injection H as <-. constructor; auto.
Qed.

Lemma mapM_total {A B : Type} (f : A -> result B) (g : A -> B) (l : list A) :
  (forall a, In a l -> f a = Ok (g a)) -> mapM f l = Ok (map g l).
Proof.
  induction l as [| a l IH]; simpl; intros H.
  - reflexivity.
  - rewrite (H a) by auto. simpl. rewrite IH by auto. reflexivity.
Qed.

(** ** Masks *)

Lemma mask_and_map {A : Type} (p q : A -> bool) (l : list A) :
  map p l &&& map q l = map (fun a => p a && q a) l.
Proof.
  unfold mask_and. induction l as [| a l IH]; simpl; congruence.
Qed.

Lemma mask_not_map {A : Type} (p : A -> bool) (l : list A) :
  ~~ map p l = map (fun a => negb (p a)) l.
Proof. unfold mask_not. apply map_map. Qed.

Lemma loc_map (p : Row -> bool) (data : DataFrame) :
  loc data (map p data) = filter p data.
Proof.
  unfold loc. induction data as [| r data IH]; simpl.
  - reflexivity.
  - destruct (p r); simpl; congruence.
Qed.

Lemma between_col (data : DataFrame) (lower upper : Z) :
  between (col year data) lower upper
  = map (fun r => in_range (year r) lower upper) data.
Proof.
  unfold between, col. rewrite !map_map. apply mask_and_map.
Qed.

Lemma in_range_spec (y : option Z) (lower upper : Z) :
  in_range y lower upper = true <-> exists v, y = Some v /\ lower <= v <= upper.
Proof.
  unfold in_range, ge, le. destruct y as [v |].
  - rewrite andb_true_iff, !Z.leb_le. split.
    + intros H. exists v. split; [reflexivity | lia].
    + intros [w [E H]]. injection E as ->. lia.
  - split; [discriminate | intros [v [E _]]; discriminate].
Qed.

Section Filters.

Variable re : ReEngine.

Lemma str_contains_Ok (c : list (option string)) (pat : string) (m : list bool) :
  str_contains re c pat = Ok m ->
  re_valid re pat = true /\ m = map (contains re pat) c.
Proof.
  unfold str_contains. destruct (re_valid re pat); intros H.
  - injection H as <-. auto.
  - discriminate.
Qed.

Lemma str_contains_valid (c : list (option string)) (pat : string) :
  re_valid re pat = true -> str_contains re c pat = Ok (map (contains re pat) c).
Proof. unfold str_contains. intros ->. reflexivity. Qed.

Lemma str_contains_col (f : Row -> option string) (data : DataFrame) (pat : string) :
  re_valid re pat = true ->
  str_contains re (col f data) pat = Ok (map (fun r => contains re pat (f r)) data).
Proof.
  intros H. rewrite (str_contains_valid _ _ H). unfold col.
  rewrite map_map. reflexivity.
Qed.

(** The masks of lines 111-118 select the rows that [browse_match]
    accepts, whenever the five patterns compile. *)
Lemma filtered_data_rows (data : DataFrame) (af : string) (yf : Z * Z)
    (lf tf : string) :
  re_valid re af = true -> re_valid re lf = true -> re_valid re tf = true ->
  re_valid re "Various" = true ->
  re_valid re "Dee Jay Mix Club|Nielegal" = true ->
  filtered_data re data af yf lf tf = Ok (filter (browse_match re af yf lf tf) data).
Proof.
  intros Ha Hl Ht Hv Hb. unfold filtered_data.
  rewrite (str_contains_col artist _ _ Ha); simpl.
  rewrite (str_contains_col label _ _ Hl); simpl.
  rewrite (str_contains_col tracklist _ _ Ht); simpl.
  rewrite (str_contains_col artist _ _ Hv); simpl.
  rewrite (str_contains_col label _ _ Hb); simpl.
  rewrite between_col, !mask_not_map, !mask_and_map, loc_map.
  reflexivity.
Qed.

Lemma str_contains_Ok_valid (c : list (option string)) (pat : string) (m : list bool) :
  str_contains re c pat = Ok m -> re_valid re pat = true.
Proof. intros H. apply str_contains_Ok in H. tauto. Qed.

(** Conversely a result means that the patterns compiled. *)
Lemma filtered_data_Ok (data : DataFrame) (af : string) (yf : Z * Z)
    (lf tf : string) (rows : DataFrame) :
  filtered_data re data af yf lf tf = Ok rows ->
  rows = filter (browse_match re af yf lf tf) data.
Proof.
  intros H. pose proof H as H0. unfold filtered_data in H.
  apply bind_Ok in H as [m1 [H1 H]]. apply str_contains_Ok_valid in H1.
  apply bind_Ok in H as [m2 [H2 H]]. apply str_contains_Ok_valid in H2.
  apply bind_Ok in H as [m3 [H3 H]]. apply str_contains_Ok_valid in H3.
  apply bind_Ok in H as [m4 [H4 H]]. apply str_contains_Ok_valid in H4.
  apply bind_Ok in H as [m5 [H5 H]]. apply str_contains_Ok_valid in H5.
  rewrite (@filtered_data_rows data af yf lf tf H1 H2 H3 H4 H5) in H0.
  injection H0 as <-. reflexivity.
Qed.

End Filters.

Lemma filter_filter_andb {A : Type} (p q : A -> bool) (l : list A) :
  filter q (filter p l) = filter (fun a => p a && q a) l.
Proof.
  induction l as [| a l IH]; simpl.
  - reflexivity.
  - destruct (p a); simpl; [destruct (q a) |]; congruence.
Qed.

Section Discovery_filter.

Variable re : ReEngine.

Lemma discover_filtered_rows (data : DataFrame) (start_year end_year : Z)
    (lf : string) :
  re_valid re "Various" = true ->
  re_valid re "Dee Jay Mix Club|Nielegal" = true ->
  truthy lf = false \/ re_valid re lf = true ->
  discover_filtered re data start_year end_year lf
  = Ok (filter (discover_match re start_year end_year lf) data).
Proof.
  intros Hv Hb Hl. unfold discover_filtered.
  rewrite (str_contains_col re artist _ _ Hv); simpl.
  rewrite (str_contains_col re label _ _ Hb); simpl.
  rewrite between_col, !mask_not_map, !mask_and_map, loc_map.
  unfold discover_match.
  destruct (truthy lf) eqn:T.
  - destruct Hl as [Hl | Hl]; [discriminate |].
    rewrite (str_contains_col re label _ _ Hl); simpl.
    rewrite loc_map, filter_filter_andb. reflexivity.
  - f_equal. apply filter_ext. intros r. simpl. rewrite andb_true_r. reflexivity.
Qed.

Lemma discover_filtered_Ok (data : DataFrame) (start_year end_year : Z)
    (lf : string) (rows : DataFrame) :
  discover_filtered re data start_year end_year lf = Ok rows ->
  rows = filter (discover_match re start_year end_year lf) data.
Proof.
  intros H. pose proof H as H0. unfold discover_filtered in H.
  apply bind_Ok in H as [m1 [H1 H]]. apply str_contains_Ok_valid in H1.
  apply bind_Ok in H as [m2 [H2 H]]. apply str_contains_Ok_valid in H2.
  assert (Hl : truthy lf = false \/ re_valid re lf = true).
  { destruct (truthy lf); [right | left; reflexivity].
    apply bind_Ok in H as [m3 [H3 _]]. apply str_contains_Ok_valid in H3. exact H3. }
  rewrite (@discover_filtered_rows data start_year end_year lf H1 H2 Hl) in H0.
  injection H0 as <-. reflexivity.
Qed.

End Discovery_filter.

(** ** The browse filter *)

Lemma contains_present (re : ReEngine) (pat : string) (x : option string) :
  contains re pat x = true -> x <> None.
Proof. destruct x; [discriminate | intros H; discriminate H]. Qed.

Lemma browse_match_present (re : ReEngine) (af : string) (yf : Z * Z)
    (lf tf : string) (r : Row) :
  browse_match re af yf lf tf r = true ->
  artist r <> None /\ label r <> None /\ tracklist r <> None.
Proof.
  unfold browse_match. rewrite !andb_true_iff.
  intros [[[[[Ha _] Hl] Ht] _] _].
  repeat split; eapply contains_present; eassumption.
Qed.

(** C10.  A record whose artist, label or track list is missing is left
    out by the browse filter, whatever the three texts and the year range
    are, the blank texts included: [na=False] makes every text predicate
    false on a missing field. *)
Theorem filtered_data_excludes_missing_text :
  forall (re : ReEngine) (data : DataFrame) (artist_filter : string)
         (year_filter : Z * Z) (label_filter track_filter : string)
         (rows : DataFrame) (r : Row),
    artist r = None \/ label r = None \/ tracklist r = None ->
    filtered_data re data artist_filter year_filter label_filter track_filter
    = Ok rows ->
    ~ In r rows.
Proof.
  intros re data af yf lf tf rows r Hnull H Hin.
  apply filtered_data_Ok in H. subst rows.
  apply filter_In in Hin as [_ Hm].
  apply browse_match_present in Hm as [Ha [Hl Ht]].
  destruct Hnull as [E | [E | E]]; contradiction.
Qed.

Lemma filtered_data_excludes_missing_text_witness :
  tracklist no_tracklist = None
  /\ filtered_data Literal.engine [no_tracklist; kaliber] "" (1991, 2024) "" ""
     = Ok [kaliber]
  /\ ~ In no_tracklist [kaliber].
Proof.
  split; [reflexivity |]. split; [vm_compute; reflexivity |].
  apply (@filtered_data_excludes_missing_text Literal.engine
           [no_tracklist; kaliber] "" (1991, 2024) "" "" [kaliber] no_tracklist).
  - right; right; reflexivity.
  - vm_compute; reflexivity.
Defined.

(** C4 as stated fails: with the three texts empty, an album that passes
    the two standing exclusions but has no track list is dropped. *)
Lemma blank_filter_is_not_only_standing_exclusions :
  filtered_data Literal.engine [kaliber; no_tracklist] "" (1991, 2024) "" ""
  <> Ok (filter (standing Literal.engine) [kaliber; no_tracklist]).
Proof. vm_compute. discriminate. Qed.

Lemma Literal_blank_matches (s : string) : re_search Literal.engine "" s = true.
Proof. destruct s; reflexivity. Qed.

(** C4, amended.  On a catalog that was loaded, that is on a frame with
    the columns of the file, and with the three texts empty, the browse
    filter returns, in catalog order, exactly the records that have an
    artist, a label and a track list, whose year is known and inside the
    selected range, and that pass the two standing exclusions; the empty
    text matches every field that is present and no field that is
    missing. *)
Theorem filtered_data_blank :
  forall (re : ReEngine) (data : DataFrame) (year_filter : Z * Z),
    re_valid re "" = true ->
    (forall s, re_search re "" s = true) ->
    re_valid re "Various" = true ->
    re_valid re "Dee Jay Mix Club|Nielegal" = true ->
    filtered_data re (Columns data) "" year_filter "" ""
    = Ok (filter (fun r => present (artist r) && present (label r)
                           && present (tracklist r)
                           && in_range (year r) (fst year_filter) (snd year_filter)
                           && standing re r) data)
    /\ forall x, contains re "" x = present x.
Proof.
  intros re data yf Hblank Hall Hv Hb.
  assert (Hc : forall x, contains re "" x = present x).
  { intros [s |]; simpl; [apply Hall | reflexivity]. }
  split; [| exact Hc].
  rewrite (@filtered_data_rows re data "" yf "" "" Hblank Hblank Hblank Hv Hb).
  f_equal. apply filter_ext. intros r.
  unfold browse_match, standing. rewrite !Hc.
  destruct (present (artist r)), (present (label r)), (present (tracklist r)),
    (in_range (year r) (fst yf) (snd yf)); reflexivity.
Qed.

Lemma filtered_data_blank_witness :
  re_valid Literal.engine "" = true
  /\ (forall s, re_search Literal.engine "" s = true)
  /\ re_valid Literal.engine "Various" = true
  /\ re_valid Literal.engine "Dee Jay Mix Club|Nielegal" = true
  /\ filtered_data Literal.engine [kaliber; skladanka; no_tracklist; no_year; molesta]
       "" (1991, 2024) "" ""
     = Ok [kaliber; molesta].
Proof.
  split; [reflexivity |]. split; [exact Literal_blank_matches |].
  split; [reflexivity |]. split; [reflexivity |].
  rewrite (proj1 (@filtered_data_blank Literal.engine
                    [kaliber; skladanka; no_tracklist; no_year; molesta]
                    (1991, 2024) eq_refl Literal_blank_matches eq_refl eq_refl)).
  vm_compute. reflexivity.
Defined.

(** ** The year range *)

Lemma between_map (c : list (option Z)) (lower upper : Z) :
  between c lower upper = map (fun y => in_range y lower upper) c.
Proof. unfold between. apply mask_and_map. Qed.

Lemma between_nth (c : list (option Z)) (lower upper : Z) (i : nat) :
  nth_error (between c lower upper) i = Some true
  <-> exists v, nth_error c i = Some (Some v) /\ lower <= v <= upper.
Proof.
  rewrite between_map, nth_error_map.
  destruct (nth_error c i) as [y |]; simpl.
  - split.
    + intros H. injection H as H. apply in_range_spec in H as [v [-> H]].
      exists v. auto.
    + intros [v [E H]]. injection E as ->. f_equal.
      apply in_range_spec. exists v. auto.
  - split; [discriminate | intros [v [E _]]; discriminate].
Qed.

Lemma browse_match_year (re : ReEngine) (af : string) (yf : Z * Z)
    (lf tf : string) (r : Row) :
  browse_match re af yf lf tf r = true ->
  in_range (year r) (fst yf) (snd yf) = true.
Proof.
  unfold browse_match. rewrite !andb_true_iff. tauto.
Qed.

Lemma discover_match_year (re : ReEngine) (start_year end_year : Z)
    (lf : string) (r : Row) :
  discover_match re start_year end_year lf r = true ->
  in_range (year r) start_year end_year = true.
Proof.
  unfold discover_match. rewrite !andb_true_iff. tauto.
Qed.

Lemma browse_match_split (re : ReEngine) (af : string) (yf : Z * Z)
    (lf tf : string) (r : Row) :
  browse_match re af yf lf tf r
  = in_range (year r) (fst yf) (snd yf) && browse_others re af lf tf r.
Proof.
  unfold browse_match, browse_others, standing.
  destruct (contains re af (artist r)), (in_range (year r) (fst yf) (snd yf)),
    (contains re lf (label r)), (contains re tf (tracklist r)),
    (contains re "Various" (artist r)),
    (contains re "Dee Jay Mix Club|Nielegal" (label r)); reflexivity.
Qed.

Lemma discover_match_split (re : ReEngine) (sy ey : Z) (lf : string) (r : Row) :
  discover_match re sy ey lf r
  = in_range (year r) sy ey && discover_others re lf r.
Proof.
  unfold discover_match, discover_others, standing.
  destruct (in_range (year r) sy ey), (contains re "Various" (artist r)),
    (contains re "Dee Jay Mix Club|Nielegal" (label r)); reflexivity.
Qed.

Lemma filter_year_and_others (data : DataFrame) (lower upper : Z)
    (others : Row -> bool) (r : Row) :
  In r (filter (fun r => in_range (year r) lower upper && others r) data)
  <-> In r data
      /\ (exists v, year r = Some v /\ lower <= v <= upper)
      /\ others r = true.
Proof.
  rewrite filter_In, andb_true_iff, in_range_spec. tauto.
Qed.

(** C5.  The year-range predicate [between(lower, upper)] is true at a
    position exactly when the year there is known and lies between the two
    bounds, both included.  In the browse filter and in the discovery
    filter, which return whenever their patterns compile, a record of the
    catalog is included exactly when its year is known and lies between
    the bounds and it satisfies the filter's other predicates; a record
    without a year is never included. *)
Theorem between_known_and_inside :
  (forall (c : list (option Z)) (lower upper : Z) (i : nat),
      nth_error (between c lower upper) i = Some true
      <-> exists v, nth_error c i = Some (Some v) /\ lower <= v <= upper)
  /\ (forall (re : ReEngine) (data : DataFrame) (af : string) (lower upper : Z)
             (lf tf : string) (rows : DataFrame) (r : Row),
         filtered_data re data af (lower, upper) lf tf = Ok rows ->
         In r rows ->
         exists v, year r = Some v /\ lower <= v <= upper)
  /\ (forall (re : ReEngine) (data : DataFrame) (lower upper : Z) (lf : string)
             (rows : DataFrame) (r : Row),
         discover_filtered re data lower upper lf = Ok rows ->
         In r rows ->
         exists v, year r = Some v /\ lower <= v <= upper)
  /\ (forall (re : ReEngine) (data : DataFrame) (af : string) (lower upper : Z)
             (lf tf : string),
         browse_patterns_valid re af lf tf = true ->
         exists rows,
           filtered_data re (Columns data) af (lower, upper) lf tf = Ok rows
           /\ forall r,
                In r rows
                <-> In r data
                    /\ (exists v, year r = Some v /\ lower <= v <= upper)
                    /\ browse_others re af lf tf r = true)
  /\ (forall (re : ReEngine) (data : DataFrame) (lower upper : Z) (lf : string),
         discover_patterns_valid re lf = true ->
         exists rows,
           discover_filtered re data lower upper lf = Ok rows
           /\ forall r,
                In r rows
                <-> In r data
                    /\ (exists v, year r = Some v /\ lower <= v <= upper)
                    /\ discover_others re lf r = true).
Proof.
  split; [exact between_nth |]. split; [| split; [| split]].
  - intros re data af lower upper lf tf rows r H Hin.
    apply filtered_data_Ok in H. subst rows.
    apply filter_In in Hin as [_ Hm]. apply browse_match_year in Hm.
    apply in_range_spec in Hm. exact Hm.
  - intros re data lower upper lf rows r H Hin.
    apply discover_filtered_Ok in H. subst rows.
    apply filter_In in Hin as [_ Hm]. apply discover_match_year in Hm.
    apply in_range_spec in Hm. exact Hm.
  - intros re data af lower upper lf tf Hvalid.
    unfold browse_patterns_valid in Hvalid. rewrite !andb_true_iff in Hvalid.
    destruct Hvalid as [[[[Ha Hl] Ht] Hv] Hb].
    eexists. split.
    + apply filtered_data_rows; assumption.
    + intros r.
      rewrite (filter_ext _ _ (browse_match_split re af (lower, upper) lf tf)).
      apply filter_year_and_others.
  - intros re data lower upper lf Hvalid.
    unfold discover_patterns_valid in Hvalid. rewrite !andb_true_iff in Hvalid.
    destruct Hvalid as [[Hv Hb] Hl].
    eexists. split.
    + apply discover_filtered_rows; [exact Hv | exact Hb |].
      apply orb_true_iff in Hl as [Hl | Hl]; [left | right; exact Hl].
      apply negb_true_iff. exact Hl.
    + intros r.
      rewrite (filter_ext _ _ (discover_match_split re lower upper lf)).
      apply filter_year_and_others.
Qed.

Lemma between_known_and_inside_witness :
  nth_error (between [Some 1996; None; Some 2030] 1991 2024) 0 = Some true
  /\ nth_error (between [Some 1996; None; Some 2030] 1991 2024) 1 = Some false
  /\ nth_error (between [Some 1996; None; Some 2030] 1991 2024) 2 = Some false
  /\ (exists v, year kaliber = Some v /\ 1991 <= v <= 1996)
  /\ (exists v, year molesta = Some v /\ 1998 <= v <= 2024)
  /\ (exists rows,
        filtered_data Literal.engine [kaliber; no_year; molesta; paktofonika]
          "" (1991, 1999) "" "" = Ok rows
        /\ In molesta rows /\ ~ In paktofonika rows /\ ~ In no_year rows)
  /\ (exists rows,
        discover_filtered Literal.engine [kaliber; no_year; molesta; paktofonika]
          1997 2024 "Records" = Ok rows
        /\ In paktofonika rows /\ ~ In kaliber rows /\ ~ In no_year rows).
Proof.
  split.
  { apply (proj1 between_known_and_inside [Some 1996; None; Some 2030] 1991 2024 0%nat).
    exists 1996. split; [reflexivity | lia]. }
  split; [reflexivity |]. split; [reflexivity |]. split; [| split; [| split]].
  - apply (proj1 (proj2 between_known_and_inside) Literal.engine
             [kaliber; no_year; molesta] "" 1991 1996 "" "" [kaliber] kaliber).
    + vm_compute. reflexivity.
    + left. reflexivity.
  - apply (proj1 (proj2 (proj2 between_known_and_inside)) Literal.engine
             [kaliber; no_year; molesta] 1998 2024 "Records" [molesta] molesta).
    + vm_compute. reflexivity.
    + left. reflexivity.
  - destruct (proj1 (proj2 (proj2 (proj2 between_known_and_inside)))
                Literal.engine [kaliber; no_year; molesta; paktofonika]
                "" 1991 1999 "" "" eq_refl) as [rows [Hrun Hin]].
    exists rows. split; [exact Hrun |]. split; [| split].
    + apply Hin. split; [right; right; left; reflexivity |].
      split; [exists 1998; split; [reflexivity | lia] | reflexivity].
    + intros H. apply Hin in H as [_ [[v [E Hv]] _]].
      injection E as <-. lia.
    + intros H. apply Hin in H as [_ [[v [E _]] _]]. discriminate E.
  - destruct (proj2 (proj2 (proj2 (proj2 between_known_and_inside)))
                Literal.engine [kaliber; no_year; molesta; paktofonika]
                1997 2024 "Records" eq_refl) as [rows [Hrun Hin]].
    exists rows. split; [exact Hrun |]. split; [| split].
    + apply Hin. split; [right; right; right; left; reflexivity |].
      split; [exists 2000; split; [reflexivity | lia] | reflexivity].
    + intros H. apply Hin in H as [_ [[v [E Hv]] _]].
      injection E as <-. lia.
    + intros H. apply Hin in H as [_ [[v [E _]] _]]. discriminate E.
Defined.

(** ** The discovery sampler *)

Lemma iloc_Ok (data : DataFrame) (i : nat) (r : Row) :
  iloc data i = Ok r <-> nth_error data i = Some r.
Proof.
  unfold iloc. destruct (nth_error data i); split; intros H;
    try discriminate; injection H as ->; reflexivity.
Qed.

Lemma take_Ok (data : DataFrame) (positions : list nat) (rows : DataFrame) :
  take data positions = Ok rows ->
  Forall2 (fun i r => nth_error data i = Some r) positions rows.
Proof.
  intros H. apply mapM_Ok_Forall2 in H.
  induction H as [| i r ps rs Hi _ IH]; constructor; auto.
  apply iloc_Ok. exact Hi.
Qed.

Lemma take_inside (data : DataFrame) (positions : list nat) :
  Forall (fun i => (i < length data)%nat) positions ->
  exists rows, take data positions = Ok rows.
Proof.
  unfold take. induction 1 as [| i ps Hi _ [rows IH]]; simpl.
  - exists []. reflexivity.
  - apply nth_error_Some in Hi.
    destruct (nth_error data i) as [r |] eqn:E; [| contradiction].
    exists (r :: rows). apply iloc_Ok in E. rewrite E. simpl. rewrite IH.
    reflexivity.
Qed.

Lemma Forall2_nth_In (data : DataFrame) (positions : list nat) (rows : DataFrame) :
  Forall2 (fun i r => nth_error data i = Some r) positions rows ->
  forall r, In r rows -> In r data.
Proof.
  induction 1 as [| i r0 ps rs Hi _ IH]; intros r Hin.
  - destruct Hin.
  - destruct Hin as [<- | Hin]; [eapply nth_error_In; eassumption | auto].
Qed.

Section Sampler.

Variable re : ReEngine.
Variable rng : Generator.

(** A seeded sample does not look at the ambient generator, and hands it
    back as it was. *)
Lemma sample_seeded (df : DataFrame) (n : nat) (s : Z) (g : RandomState rng) :
  sample rng df n (Some s) g
  = if (length df <? n)%nat then Raise ValueError
    else rows <- take df (fst (choice rng (RandomState_seed rng s) (length df) n)) ;;
         Ok (rows, g).
Proof. unfold sample. destruct (length df <? n)%nat; reflexivity. Qed.

Lemma sample_seeded_same (df : DataFrame) (n : nat) (s : Z)
    (g1 g2 : RandomState rng) :
  fmap fst (sample rng df n (Some s) g1) = fmap fst (sample rng df n (Some s) g2).
Proof.
  rewrite !sample_seeded. destruct (length df <? n)%nat; [reflexivity |].
  destruct (take df _); reflexivity.
Qed.

Lemma sample_seeded_ambient (df : DataFrame) (n : nat) (s : Z)
    (g g' : RandomState rng) (rows : DataFrame) :
  sample rng df n (Some s) g = Ok (rows, g') ->
  g' = g /\ forall g2, sample rng df n (Some s) g2 = Ok (rows, g2).
Proof.
  rewrite sample_seeded. intros H. split.
  - destruct (length df <? n)%nat; [discriminate |].
    destruct (take df _); [injection H as _ <-; reflexivity | discriminate].
  - intros g2. rewrite sample_seeded.
    destruct (length df <? n)%nat; [discriminate |].
    destruct (take df _); [injection H as <- _; reflexivity | discriminate].
Qed.

Lemma sample_without_replacement (df : DataFrame) (n : nat) (s : Z)
    (g : RandomState rng) :
  without_replacement rng ->
  (n <= length df)%nat ->
  exists rows positions,
    sample rng df n (Some s) g = Ok (rows, g)
    /\ length positions = n
    /\ NoDup positions
    /\ Forall2 (fun i r => nth_error df i = Some r) positions rows.
Proof.
  intros law Hn. rewrite sample_seeded.
  destruct (law (RandomState_seed rng s) (length df) n Hn) as [Hlen [Hnd Hin]].
  destruct (take_inside df Hin) as [rows Hrows].
  exists rows, (fst (choice rng (RandomState_seed rng s) (length df) n)).
  replace (length df <? n)%nat with false
    by (symmetry; apply Nat.ltb_ge; exact Hn).
  rewrite Hrows. simpl. repeat split; auto.
  apply take_Ok. exact Hrows.
Qed.

Lemma cache_lookup_head (k : Key) (v : DataFrame) (c : Cache) :
  cache_lookup k ((k, v) :: c) = Some v.
Proof. simpl. destruct (Key_eq_dec k k); [reflexivity | contradiction]. Qed.

(** Once a call has returned, every later call with the same arguments
    returns the same frame, out of the cache. *)
Lemma cached_generate_discover_list_again (c c1 : Cache)
    (g1 g1' g2 : RandomState rng) (data : DataFrame)
    (start_year end_year : Z) (lf : string) (selection : DataFrame) :
  cached_generate_discover_list re rng c g1 data start_year end_year lf
  = Ok (selection, c1, g1') ->
  cached_generate_discover_list re rng c1 g2 data start_year end_year lf
  = Ok (selection, c1, g2).
Proof.
  unfold cached_generate_discover_list.
  destruct (cache_lookup (data, start_year, end_year, lf) c) as [v |] eqn:E.
  - intros H. injection H as <- <- _. rewrite E. reflexivity.
  - intros H. apply bind_Ok in H as [[sel g'] [_ H]]. simpl in H.
    injection H as <- <- _. rewrite cache_lookup_head. reflexivity.
Qed.

End Sampler.

(** C3.  Two calls of [generate_discover_list] with the same catalog, year
    range and label text give the same outcome, the same rows in the same
    order: the sample is drawn from a generator seeded with 42 at each call,
    so the state of the ambient generator at either call ([g1], [g2]) plays
    no part; and under [st.cache_data] a second call with the same arguments
    returns the frame the first one returned. *)
Theorem generate_discover_list_deterministic :
  forall (re : ReEngine) (rng : Generator) (data : DataFrame)
         (start_year end_year : Z) (label_filter : string)
         (g1 g2 : RandomState rng),
    fmap fst (generate_discover_list re rng g1 data start_year end_year label_filter)
    = fmap fst (generate_discover_list re rng g2 data start_year end_year label_filter)
    /\ forall (c c1 : Cache) (g1' : RandomState rng) (selection : DataFrame),
         cached_generate_discover_list re rng c g1 data start_year end_year
           label_filter = Ok (selection, c1, g1') ->
         cached_generate_discover_list re rng c1 g2 data start_year end_year
           label_filter = Ok (selection, c1, g2).
Proof.
  intros re rng data sy ey lf g1 g2. split.
  - unfold generate_discover_list.
    destruct (discover_filtered re data sy ey lf) as [filtered | e]; simpl.
    + apply sample_seeded_same.
    + reflexivity.
  - intros c c1 g1' selection. apply cached_generate_discover_list_again.
Qed.

Lemma generate_discover_list_deterministic_witness :
  exists (selection : DataFrame) (c1 : Cache),
    cached_generate_discover_list Literal.engine Lcg.generator [] 5
      [kaliber; skladanka; molesta; paktofonika; no_year] 1991 2024 "Records"
    = Ok (selection, c1, 5)
    /\ cached_generate_discover_list Literal.engine Lcg.generator c1 77
         [kaliber; skladanka; molesta; paktofonika; no_year] 1991 2024 "Records"
       = Ok (selection, c1, 77)
    /\ length selection = 3%nat.
Proof.
  eexists. eexists. split; [vm_compute; reflexivity |]. split.
  - apply (proj2 (@generate_discover_list_deterministic Literal.engine
                    Lcg.generator [kaliber; skladanka; molesta; paktofonika; no_year]
                    1991 2024 "Records" 5 77) [] _ 5 _).
    vm_compute. reflexivity.
  - reflexivity.
Defined.

(** *** The generator [Lcg] draws without replacement *)

Import Lcg.

Lemma remove_at_length (j : nat) (pool : list nat) :
  (j < length pool)%nat -> length (remove_at j pool) = (length pool - 1)%nat.
Proof.
  revert j; induction pool as [| p pool IH]; intros j H; simpl in *.
  - lia.
  - destruct j as [| j]; simpl; [lia |].
    rewrite IH by lia. lia.
Qed.

Lemma remove_at_In (j : nat) (pool : list nat) (x : nat) :
  In x (remove_at j pool) -> In x pool.
Proof.
  revert j; induction pool as [| p pool IH]; intros j H; simpl in *.
  - exact H.
  - destruct j as [| j]; [auto |].
    destruct H as [H | H]; [auto | right; eapply IH; eassumption].
Qed.

Lemma remove_at_NoDup (j : nat) (pool : list nat) :
  NoDup pool -> NoDup (remove_at j pool).
Proof.
  intros H; revert j; induction H as [| p pool Hp H IH]; intros j; simpl.
  - constructor.
  - destruct j as [| j]; [exact H |].
    constructor; [| apply IH].
    intros Hin. apply Hp. eapply remove_at_In; eassumption.
Qed.

Lemma remove_at_fresh (j : nat) (pool : list nat) :
  NoDup pool -> (j < length pool)%nat -> ~ In (nth j pool O) (remove_at j pool).
Proof.
  intros H; revert j; induction H as [| p pool Hp H IH]; intros j Hj; simpl in *.
  - lia.
  - destruct j as [| j]; [exact Hp |].
    intros [E | Hin].
    + apply Hp. rewrite E. apply nth_In. lia.
    + apply (IH j); [lia | exact Hin].
Qed.

Lemma draw_position (st : Z) (pool : list nat) :
  pool <> [] ->
  (Z.to_nat (st mod Z.of_nat (length pool)) < length pool)%nat.
Proof.
  intros H. assert (0 < Z.of_nat (length pool)) by (destruct pool; simpl in *; [congruence | lia]).
  pose proof (Z.mod_pos_bound st (Z.of_nat (length pool)) ltac:(assumption)). lia.
Qed.

Lemma draw_step (size : nat) (st : Z) (p : nat) (pool : list nat) :
  fst (draw (S size) st (p :: pool))
  = nth (Z.to_nat (next st mod Z.of_nat (length (p :: pool)))) (p :: pool) O
    :: fst (draw size (next st)
              (remove_at (Z.to_nat (next st mod Z.of_nat (length (p :: pool))))
                         (p :: pool))).
Proof. reflexivity. Qed.

Lemma draw_spec (size : nat) :
  forall (st : Z) (pool : list nat),
    NoDup pool -> (size <= length pool)%nat ->
    length (fst (draw size st pool)) = size
    /\ NoDup (fst (draw size st pool))
    /\ (forall x, In x (fst (draw size st pool)) -> In x pool).
Proof.
  induction size as [| size IH]; intros st pool Hnd Hsize.
  - simpl. repeat split; [constructor | intros x []].
  - destruct pool as [| p pool]; [simpl in Hsize; lia |].
    rewrite draw_step.
    set (pool0 := p :: pool) in *.
    set (j := Z.to_nat (next st mod Z.of_nat (length pool0))).
    assert (Hj : (j < length pool0)%nat) by (apply draw_position; discriminate).
    destruct (IH (next st) (remove_at j pool0)) as [Hlen [Hnd' Hin]].
    + apply remove_at_NoDup. exact Hnd.
    + rewrite remove_at_length by exact Hj. lia.
    + split; [cbn [length]; f_equal; exact Hlen |]. split.
      * constructor; [| exact Hnd'].
        intros H. apply Hin in H. revert H. apply remove_at_fresh; assumption.
      * intros x [<- | H]; [apply nth_In; exact Hj |].
        eapply remove_at_In. apply Hin. exact H.
Qed.

Lemma Lcg_without_replacement : without_replacement Lcg.generator.
Proof.
  intros st pop size Hsize. simpl.
  destruct (@draw_spec size st (seq 0 pop)) as [Hlen [Hnd Hin]].
  - apply seq_NoDup.
  - rewrite length_seq. exact Hsize.
  - repeat split; auto.
    apply Forall_forall. intros x Hx. apply Hin, in_seq in Hx. lia.
Qed.

Lemma truthy_false (s : string) : truthy s = false <-> s = "".
Proof. destruct s; simpl; split; intros H; congruence. Qed.

Lemma discover_match_words (re : ReEngine) (sy ey : Z) (lf : string) (r : Row) :
  discover_match re sy ey lf r = true
  <-> (exists v, year r = Some v /\ sy <= v <= ey)
      /\ contains re "Various" (artist r) = false
      /\ contains re "Dee Jay Mix Club|Nielegal" (label r) = false
      /\ (lf = "" \/ contains re lf (label r) = true).
Proof.
  unfold discover_match.
  rewrite !andb_true_iff, orb_true_iff, !negb_true_iff, truthy_false,
    in_range_spec.
  tauto.
Qed.

(** C6 as stated fails: a label text that is not a regular expression
    makes [generate_discover_list] raise, so that no selection is
    returned, whatever the catalog holds. *)
Lemma generate_discover_list_raises_on_bad_label :
  generate_discover_list Literal.engine Lcg.generator 5
    [kaliber; molesta; paktofonika] 1991 2024 "("
  = Raise ReError
  /\ forall out,
       generate_discover_list Literal.engine Lcg.generator 5
         [kaliber; molesta; paktofonika] 1991 2024 "(" <> Ok out.
Proof.
  split; [vm_compute; reflexivity |].
  intros out H. vm_compute in H. discriminate H.
Qed.

(** C6, amended.  For a label text that is empty (it is then not compiled)
    or a regular expression that compiles, a generator that draws without
    replacement and the two fixed patterns compiling,
    [generate_discover_list] returns a selection: it has exactly
    min(30, number of matching records) rows, they sit at pairwise
    different positions of the matching subset, so each of them belongs to
    it, and an empty matching subset gives an empty selection rather than
    an exception.  The matching subset holds the records of the catalog
    with a known year in the range, an artist that does not match
    "Various", a label that does not match the two banned ones and, for a
    text that is not empty, a label that matches the text.  For a text
    that is not empty and does not compile the function raises and returns
    no selection. *)
Theorem generate_discover_list_selection :
  forall (re : ReEngine) (rng : Generator) (g : RandomState rng)
         (data : DataFrame) (start_year end_year : Z) (label_filter : string),
    (without_replacement rng ->
     re_valid re "Various" = true ->
     re_valid re "Dee Jay Mix Club|Nielegal" = true ->
     truthy label_filter = false \/ re_valid re label_filter = true ->
     exists (selection : DataFrame) (positions : list nat),
       generate_discover_list re rng g data start_year end_year label_filter
       = Ok (selection, g)
       /\ length selection
          = Nat.min 30 (length (filter (discover_match re start_year end_year
                                          label_filter) data))
       /\ NoDup positions
       /\ Forall2 (fun i r =>
                     nth_error (filter (discover_match re start_year end_year
                                          label_filter) data) i = Some r)
                  positions selection
       /\ (forall r, In r selection ->
                     In r (filter (discover_match re start_year end_year
                                     label_filter) data))
       /\ (filter (discover_match re start_year end_year label_filter) data = [] ->
           selection = []))
    /\ (forall r,
          In r (filter (discover_match re start_year end_year label_filter) data)
          <-> In r data
              /\ (exists v, year r = Some v /\ start_year <= v <= end_year)
              /\ contains re "Various" (artist r) = false
              /\ contains re "Dee Jay Mix Club|Nielegal" (label r) = false
              /\ (label_filter = "" \/ contains re label_filter (label r) = true))
    /\ (truthy label_filter = true ->
        re_valid re label_filter = false ->
        generate_discover_list re rng g data start_year end_year label_filter
        = Raise ReError).
Proof.
  intros re rng g data sy ey lf. split; [| split].
  - intros law Hv Hb Hl.
    unfold generate_discover_list.
    rewrite (@discover_filtered_rows re data sy ey lf Hv Hb Hl). simpl.
    set (matching := filter (discover_match re sy ey lf) data).
    destruct (@sample_without_replacement rng matching
                (Nat.min 30 (length matching)) 42 g law (Nat.le_min_r _ _))
      as [rows [positions [Hs [Hlen [Hnd Hrows]]]]].
    exists rows, positions.
    assert (Hrl : length rows = Nat.min 30 (length matching)).
    { rewrite <- Hlen. symmetry. eapply Forall2_length. exact Hrows. }
    repeat split; auto.
    + apply Forall2_nth_In with (positions := positions). exact Hrows.
    + intros E. rewrite E in Hrl. simpl in Hrl.
      destruct rows; [reflexivity | discriminate].
  - intros r. rewrite filter_In, discover_match_words. tauto.
  - intros Ht Hl. unfold generate_discover_list, discover_filtered, str_contains.
    destruct (re_valid re "Various"); [| reflexivity].
    destruct (re_valid re "Dee Jay Mix Club|Nielegal"); [| reflexivity].
    cbn [bind]. rewrite Ht, Hl. reflexivity.
Qed.

Lemma generate_discover_list_selection_witness :
  without_replacement Lcg.generator
  /\ re_valid Literal.engine "Records" = true
  /\ (exists (selection : DataFrame) (positions : list nat),
        generate_discover_list Literal.engine Lcg.generator 5
          [kaliber; skladanka; molesta; paktofonika; no_year] 1991 2024 "Records"
        = Ok (selection, 5)
        /\ length selection = 3%nat
        /\ NoDup positions
        /\ Forall2 (fun i r => nth_error [kaliber; molesta; paktofonika] i = Some r)
                   positions selection)
  /\ generate_discover_list Literal.engine Lcg.generator 5
       [kaliber; skladanka; molesta; paktofonika; no_year] 1991 2024 "[Records"
     = Raise ReError.
Proof.
  split; [exact Lcg_without_replacement |]. split; [reflexivity |]. split.
  - destruct (proj1 (@generate_discover_list_selection Literal.engine
                       Lcg.generator 5
                       [kaliber; skladanka; molesta; paktofonika; no_year]
                       1991 2024 "Records")
                Lcg_without_replacement eq_refl eq_refl (or_intror eq_refl))
      as [selection [positions [Hrun [Hlen [Hnd [Hrows _]]]]]].
    exists selection, positions. auto.
  - apply (proj2 (proj2 (@generate_discover_list_selection Literal.engine
                           Lcg.generator 5
                           [kaliber; skladanka; molesta; paktofonika; no_year]
                           1991 2024 "[Records"))); reflexivity.
Defined.

(** More than thirty matching records: thirty are drawn. *)
Example generate_discover_list_thirty :
  fmap (fun r => length (fst r))
       (generate_discover_list Literal.engine Lcg.generator 5
          (thirty ++ [kaliber; molesta; paktofonika])%list 1991 2024 "")
  = Ok 30%nat.
Proof. vm_compute. reflexivity. Qed.

(** ** The calendar *)

Lemma cell_nth (discover_data : DataFrame) (idx : nat) (date : Z) :
  cell discover_data (idx, date) = Ok (date, nth_error discover_data idx).
Proof.
  unfold cell, iloc. destruct (idx <? length discover_data)%nat eqn:E.
  - apply Nat.ltb_lt, nth_error_Some in E.
    destruct (nth_error discover_data idx); [reflexivity | contradiction].
  - apply Nat.ltb_ge, nth_error_None in E. rewrite E. reflexivity.
Qed.

(** The calendar never raises: four rows of seven days and one of two, and
    the cell in column [d] of every row shows the album at position [d] of
    the selection. *)
Lemma create_interactive_calendar_rows (discover_data : DataFrame) (today : Z) :
  create_interactive_calendar discover_data today
  = Ok (map (fun w =>
               map (fun d => (today + Z.of_nat (7 * w + d), nth_error discover_data d))
                   (seq 0 (if (w <? 4)%nat then 7 else 2)))
            (seq 0 5)).
Proof.
  unfold create_interactive_calendar.
  assert (Hweek : forall week,
             mapM (cell discover_data) (enumerate week)
             = Ok (map (fun p => (snd p, nth_error discover_data (fst p)))
                       (enumerate week))).
  { intros week. apply mapM_total. intros [idx date] _. apply cell_nth. }
  rewrite (mapM_total _ _ (week_data (dates today)) (fun week _ => Hweek week)).
  reflexivity.
Qed.

(** The cell of day [i] of the window carries the entry [i mod 7] of the
    selection. *)
Lemma create_interactive_calendar_day (discover_data : DataFrame) (today : Z)
    (i : nat) :
  (i < 30)%nat ->
  fmap (fun weeks => nth_error (concat weeks) i)
       (create_interactive_calendar discover_data today)
  = Ok (Some (today + Z.of_nat i, nth_error discover_data (i mod 7))).
Proof.
  intros Hi. rewrite create_interactive_calendar_rows.
  do 30 (destruct i as [| i]; [reflexivity |]). lia.
Qed.

(** C1, at a selection of thirty different albums: the eighth day of the
    window (day 7, the first cell of the second row) shows the first album
    of the selection again, not the eighth one. *)
Theorem calendar_second_week_repeats_first :
  fmap (fun weeks => nth_error (concat weeks) 7)
       (create_interactive_calendar thirty 0)
  = Ok (Some (7, Some (numbered 0)))
  /\ nth_error thirty 7 = Some (numbered 7)
  /\ numbered 0 <> numbered 7.
Proof.
  split; [vm_compute; reflexivity |].
  split; [reflexivity |]. discriminate.
Qed.

(** ** Pagination *)

(** For a count that is not negative [total_pages] is the count divided by
    the page size, rounded up. *)
Lemma total_pages_ceil (n : Z) :
  0 <= n -> 20 * (total_pages n - 1) < n <= 20 * total_pages n.
Proof.
  intros Hn. unfold total_pages, results_per_page.
  pose proof (Z.div_mod (- n) 20 ltac:(lia)).
  pose proof (Z.mod_pos_bound (- n) 20 ltac:(lia)). lia.
Qed.

Lemma total_pages_positive (n : Z) : 1 <= n -> 1 <= total_pages n.
Proof.
  intros Hn. pose proof (@total_pages_ceil n ltac:(lia)). lia.
Qed.

(** C2, at a search that finds nothing: zero rows give zero pages, not one,
    and the page slider is asked for the range from 1 to 0 with 1 as its
    initial value. *)
Theorem total_pages_not_floored :
  fmap (fun rows => page_slider (Z.of_nat (length rows)))
       (filtered_data Literal.engine [kaliber; molesta] "Peja" (1991, 2024) "" "")
  = Ok (1, 0, 1)
  /\ total_pages 0 = 0.
Proof. split; vm_compute; reflexivity. Qed.

(** ** The loader *)

Lemma year_lambda_missing : year_lambda None = Ok None.
Proof. reflexivity. Qed.

Lemma year_lambda_not_digits (s : string) :
  isdigit (replace_comma s) = false -> year_lambda (Some s) = Ok None.
Proof. simpl. intros ->. reflexivity. Qed.

Lemma int_digits_ascii (x : string) :
  all_chars is_ascii_digit x = true ->
  forall acc, exists n, int_digits acc x = Ok n.
Proof.
  induction x as [| c x IH]; simpl; intros H acc.
  - exists acc. reflexivity.
  - apply andb_true_iff in H as [Hc Hx]. unfold is_ascii_digit in Hc.
    destruct (decimal_value c) as [d |]; [| discriminate].
    apply IH. exact Hx.
Qed.

Lemma is_ascii_digit_isdigit (x : string) :
  all_chars is_ascii_digit x = true -> all_chars isdigit_char x = true.
Proof.
  induction x as [| c x IH]; simpl; intros H.
  - reflexivity.
  - apply andb_true_iff in H as [Hc Hx]. rewrite (IH Hx), andb_true_r.
    unfold is_ascii_digit, decimal_value in Hc. unfold isdigit_char.
    destruct ((48 <=? Z.of_nat (nat_of_ascii c)) && (Z.of_nat (nat_of_ascii c) <=? 57));
      [reflexivity | discriminate].
Qed.

(** A year written with the digits '0' .. '9' and commas only, with one
    digit at least and [max_str_digits] at most, is parsed. *)
Lemma year_lambda_ascii_digits (s : string) :
  replace_comma s <> EmptyString ->
  (String.length (replace_comma s) <= max_str_digits)%nat ->
  all_chars is_ascii_digit (replace_comma s) = true ->
  exists n, year_lambda (Some s) = Ok (Some n).
Proof.
  intros Hne Hlen Hd. simpl.
  destruct (replace_comma s) as [| c x] eqn:E; [congruence |].
  unfold isdigit. rewrite (is_ascii_digit_isdigit _ Hd).
  destruct (int_digits_ascii _ Hd 0) as [n Hn].
  exists n. unfold int.
  replace (max_str_digits <? String.length (String c x))%nat with false
    by (symmetry; apply Nat.ltb_ge; exact Hlen).
  rewrite Hn. reflexivity.
Qed.

Example year_lambda_1999 : year_lambda (Some "1,999") = Ok (Some 1999).
Proof. reflexivity. Qed.

Example year_lambda_text : year_lambda (Some "199x") = Ok None.
Proof. reflexivity. Qed.

(** C7, at a file in which one year reads as the superscript digit U+00B2:
    [isdigit] accepts it, [int] raises ValueError on it, and the loader
    ends in its [except] branch with the empty frame, losing the good row
    as well. *)
Theorem load_data_aborts_on_superscript_year :
  isdigit (replace_comma superscript_two) = true
  /\ year_lambda (Some superscript_two) = Raise ValueError
  /\ load_data (Ok [mkRaw (Some "Kaliber 44") (Some "Ksiega Tajemnicza. Prolog")
                          (Some "1996") (Some "S.P. Records") (Some 17) None None;
                    mkRaw (Some "Molesta") (Some "Skandal")
                          (Some superscript_two) (Some "B.E.A.T. Records")
                          (Some 16) None None])
     = ([], Error ValueError).
Proof. repeat split; vm_compute; reflexivity. Qed.

(** ** The average number of tracks per year *)

Lemma insert_key_In (v : Z) (keys : list Z) (y : Z) :
  In y (insert_key v keys) <-> y = v \/ In y keys.
Proof.
  induction keys as [| k keys IH]; simpl.
  - intuition.
  - destruct (v <? k) eqn:Hlt; simpl.
    + intuition.
    + destruct (v =? k) eqn:Heq; simpl.
      * apply Z.eqb_eq in Heq. subst k. intuition.
      * rewrite IH. intuition.
Qed.

Lemma insert_key_sorted (v : Z) (keys : list Z) :
  StronglySorted Z.lt keys -> StronglySorted Z.lt (insert_key v keys).
Proof.
  induction 1 as [| k keys Hs IH Hk]; simpl.
  - constructor; constructor.
  - destruct (v <? k) eqn:Hlt.
    + apply Z.ltb_lt in Hlt. constructor; [constructor; assumption |].
      constructor; [exact Hlt |].
      eapply Forall_impl; [| exact Hk]. intros a Ha. simpl in Ha. lia.
    + destruct (v =? k) eqn:Heq.
      * constructor; assumption.
      * apply Z.ltb_ge in Hlt. apply Z.eqb_neq in Heq.
        constructor; [exact IH |].
        apply Forall_forall. intros a Ha. apply insert_key_In in Ha as [-> | Ha].
        -- lia.
        -- rewrite Forall_forall in Hk. apply Hk. exact Ha.
Qed.

Lemma group_keys_In (c : list (option Z)) (y : Z) :
  In y (group_keys c) <-> In (Some y) c.
Proof.
  induction c as [| x c IH]; simpl.
  - tauto.
  - destruct x as [v |].
    + rewrite insert_key_In, IH. split.
      * intros [-> | H]; auto.
      * intros [E | H]; [injection E as ->; auto | auto].
    + rewrite IH. split; [auto | intros [E | H]; [discriminate | exact H]].
Qed.

Lemma group_keys_sorted (c : list (option Z)) : StronglySorted Z.lt (group_keys c).
Proof.
  induction c as [| x c IH]; simpl.
  - constructor.
  - destruct x; [apply insert_key_sorted |]; exact IH.
Qed.

Lemma sorted_NoDup (keys : list Z) : StronglySorted Z.lt keys -> NoDup keys.
Proof.
  induction 1 as [| k keys Hs IH Hk]; constructor; [| exact IH].
  intros Hin. rewrite Forall_forall in Hk. apply Hk in Hin. lia.
Qed.

Lemma year_is_spec (y : Z) (r : Row) : year_is y r = true <-> year r = Some y.
Proof.
  unfold year_is. destruct (year r) as [v |].
  - rewrite Z.eqb_eq. split; [intros -> | intros E; injection E]; auto.
  - split; discriminate.
Qed.

Lemma dropna_In (c : list (option Z)) (v : Z) :
  In v (dropna c) <-> In (Some v) c.
Proof.
  induction c as [| x c IH]; simpl.
  - tauto.
  - destruct x as [w |]; simpl; rewrite IH.
    + split; (intros [E | H]; [left; congruence | auto]).
    + split; [auto | intros [E | H]; [discriminate | exact H]].
Qed.

Lemma mean_all_missing (c : list (option Z)) :
  (forall x, In x c -> x = None) -> mean c = None.
Proof.
  intros H. unfold mean. destruct (dropna c) as [| v vs] eqn:E; [reflexivity |].
  assert (Hin : In v (dropna c)) by (rewrite E; left; reflexivity).
  apply dropna_In, H in Hin. discriminate.
Qed.

Lemma mean_arithmetic (c : list (option Z)) :
  dropna c <> [] ->
  exists q, mean c = Some q
            /\ (q * inject_Z (Z.of_nat (length (dropna c)))
                == inject_Z (sum (dropna c)))%Q.
Proof.
  intros Hne. unfold mean. destruct (dropna c) as [| v vs]; [congruence |].
  eexists. split; [reflexivity |].
  unfold Qeq, Qmult, inject_Z; cbn [Qnum Qden].
  rewrite Pos.mul_1_r, Z.mul_1_r.
  replace (Z.pos (Pos.of_nat (length (v :: vs)))) with (Z.of_nat (length (v :: vs)));
    [reflexivity |].
  rewrite <- positive_nat_Z, Nat2Pos.id; [reflexivity | discriminate].
Qed.

(** C8.  [avg_tracks_per_year] has one entry for every year that occurs in
    the catalog, in ascending order and none twice, records without a year
    being in no group.  The entry of a year is missing, and so is not zero,
    when no record of that year has a track count; otherwise it is the sum
    of the track counts that are known divided by their number. *)
Theorem avg_tracks_per_year_mean :
  forall (data : DataFrame),
    (forall y, In y (map fst (avg_tracks_per_year data))
               <-> exists r, In r data /\ year r = Some y)
    /\ StronglySorted Z.lt (map fst (avg_tracks_per_year data))
    /\ forall (y : Z) (m : option Q),
         In (y, m) (avg_tracks_per_year data) ->
         ((forall r, In r data -> year r = Some y -> track_count r = None) ->
          m = None)
         /\ ((exists r, In r data /\ year r = Some y /\ track_count r <> None) ->
             exists q,
               m = Some q
               /\ (q * inject_Z (Z.of_nat (length
                       (dropna (col track_count (filter (year_is y) data)))))
                   == inject_Z (sum
                       (dropna (col track_count (filter (year_is y) data)))))%Q).
Proof.
  intros data.
  assert (Hkeys : map fst (avg_tracks_per_year data) = group_keys (col year data)).
  { unfold avg_tracks_per_year. rewrite map_map. simpl. apply map_id. }
  rewrite Hkeys. split; [| split].
  - intros y. rewrite group_keys_In. unfold col. rewrite in_map_iff.
    split; intros [r [H1 H2]]; exists r; tauto.
  - apply group_keys_sorted.
  - intros y m Hin. unfold avg_tracks_per_year in Hin.
    apply in_map_iff in Hin as [y' [E _]]. injection E as -> <-. split.
    + intros Hall. apply mean_all_missing. intros x Hx. unfold col in Hx.
      apply in_map_iff in Hx as [r [<- Hr]]. apply filter_In in Hr as [Hr Hy].
      apply Hall; [exact Hr | apply year_is_spec; exact Hy].
    + intros [r [Hr [Hy Ht]]]. apply mean_arithmetic.
      destruct (track_count r) as [n |] eqn:En; [| congruence].
      assert (Hn : In n (dropna (col track_count (filter (year_is y) data)))).
      { apply dropna_In. unfold col. apply in_map_iff. exists r. split; [exact En |].
        apply filter_In. split; [exact Hr | apply year_is_spec; exact Hy]. }
      intros E. rewrite E in Hn. destruct Hn.
Qed.

Lemma avg_tracks_per_year_mean_witness :
  avg_tracks_per_year [molesta; kaliber; no_count 1995; no_year;
                       album "Wzgorze Ya-Pa 3" "Wzgorze Ya-Pa 3" 1996
                             "S.P. Records" 20 "Langusta";
                       no_count 1996; no_count 1995]
  = [(1995, None); (1996, Some (Qmake 37 2)); (1998, Some (Qmake 16 1))]
  /\ (Qmake 37 2 * inject_Z 2 == inject_Z (17 + 20))%Q.
Proof.
  split; [vm_compute; reflexivity |].
  destruct (proj2 (proj2 (avg_tracks_per_year_mean
              [molesta; kaliber; no_count 1995; no_year;
               album "Wzgorze Ya-Pa 3" "Wzgorze Ya-Pa 3" 1996
                     "S.P. Records" 20 "Langusta";
               no_count 1996; no_count 1995])) 1996 (Some (Qmake 37 2)))
    as [_ H].
  - vm_compute. right. left. reflexivity.
  - destruct H as [q [E Hq]].
    + exists kaliber. split; [vm_compute; tauto |]. split; [reflexivity | discriminate].
    + injection E as <-. exact Hq.
Defined.

(** ** What the script does to the catalog *)

Lemma combine_map_self {A B : Type} (f : A -> B) (l : list A) :
  combine l (map f l) = map (fun a => (a, f a)) l.
Proof. induction l as [| a l IH]; simpl; congruence. Qed.

Lemma assign_decade_rows (d : DataFrame) :
  assign_decade d = map (fun r => set_decade r (decade_of (year r))) d.
Proof.
  unfold assign_decade, times, floordiv, col. rewrite !map_map.
  rewrite combine_map_self, map_map. apply map_ext. intros r. simpl.
  unfold decade_of. destruct (year r); reflexivity.
Qed.

Lemma assign_decade_loaded_fields (d : DataFrame) :
  map loaded_fields (assign_decade d) = map loaded_fields d.
Proof. rewrite assign_decade_rows, map_map. reflexivity. Qed.

Lemma assign_decade_again (d : DataFrame) :
  assign_decade (assign_decade d) = assign_decade d.
Proof. rewrite !assign_decade_rows, map_map. reflexivity. Qed.

Lemma assign_decade_column (d : DataFrame) :
  col decade (assign_decade d) = map (fun r => Some (decade_of (year r))) d.
Proof. unfold col. rewrite assign_decade_rows, map_map. reflexivity. Qed.

Lemma is_Decade_In (ss : list Statement) :
  existsb is_Decade ss = true <-> In Decade ss.
Proof.
  rewrite existsb_exists. split.
  - intros [s [Hin Hs]]. destruct s; try discriminate. exact Hin.
  - intros H. exists Decade. auto.
Qed.

Section Frame.

Variable re : ReEngine.
Variable rng : Generator.

Lemma exec_data (s : Statement) (env env' : Env (RandomState rng)) (v : View) :
  exec re rng s env = Ok (env', v) ->
  memo env' = memo env
  /\ data env' = if is_Decade s then assign_decade (data env) else data env.
Proof.
  destruct s as [af yf lf tf page | | | sy ey lf today]; simpl; intros H.
  - apply bind_Ok in H as [rows [_ H]]. injection H as <- _. auto.
  - injection H as <- _. auto.
  - injection H as <- _. auto.
  - apply bind_Ok in H as [r [_ H]].
    destruct (fst (fst r)).
    + injection H as <- _. auto.
    + apply bind_Ok in H as [weeks [_ H]]. injection H as <- _. auto.
Qed.

Lemma exec_all_data (ss : list Statement) :
  forall (env env' : Env (RandomState rng)),
    exec_all re rng ss env = Ok env' ->
    memo env' = memo env
    /\ data env' = if existsb is_Decade ss then assign_decade (data env)
                   else data env.
Proof.
  induction ss as [| s ss IH]; simpl; intros env env' H.
  - injection H as <-. auto.
  - apply bind_Ok in H as [[env1 v] [H1 H]]. simpl in H.
    apply exec_data in H1 as [Hm1 Hd1]. apply IH in H as [Hm Hd].
    split; [congruence |]. rewrite Hd, Hd1.
    destruct (is_Decade s), (existsb is_Decade ss); simpl;
      auto using assign_decade_again.
Qed.

End Frame.

(** C9 as stated fails: after the statistics tab has run line 139, the
    frame [data] which every later statement reads is no longer the frame
    that was loaded; each row has gained the field ['decade']. *)
Lemma decade_is_assigned_in_place :
  fmap (fun env => data env)
       (exec_all Literal.engine Lcg.generator [Decade]
                 (@mkEnv Z [kaliber] [kaliber] [] 5))
  = Ok [set_decade kaliber (Some 1990)]
  /\ [set_decade kaliber (Some 1990)] <> [kaliber].
Proof. split; [vm_compute; reflexivity | discriminate]. Qed.

(** C9, amended.  No statement of the script changes the number or the
    order of the records of [data], nor any of the seven fields they were
    loaded with, and none touches the frame kept by the loader's cache.
    Filtering, averaging, sampling and the calendar leave [data] as it is;
    line 139 stores the derived column ['decade'] in [data] itself, the
    decade being floor(year / 10) * 10 for a known year and missing
    otherwise. *)
Theorem catalog_frame :
  forall (re : ReEngine) (rng : Generator) (ss : list Statement)
         (env env' : Env (RandomState rng)),
    exec_all re rng ss env = Ok env' ->
    memo env' = memo env
    /\ map loaded_fields (data env') = map loaded_fields (data env)
    /\ (~ In Decade ss -> data env' = data env)
    /\ (In Decade ss ->
        data env' = assign_decade (data env)
        /\ col decade (data env')
           = map (fun r => Some (decade_of (year r))) (data env)).
Proof.
  intros re rng ss env env' H.
  apply exec_all_data in H as [Hm Hd]. split; [exact Hm |].
  pose proof (is_Decade_In ss) as Hin.
  destruct (existsb is_Decade ss).
  - rewrite Hd. split; [apply assign_decade_loaded_fields |]. split.
    + intros Hn. exfalso. apply Hn, Hin. reflexivity.
    + intros _. split; [reflexivity | apply assign_decade_column].
  - rewrite Hd. split; [reflexivity |]. split.
    + reflexivity.
    + intros Hd'. apply Hin in Hd'. discriminate.
Qed.

Lemma catalog_frame_witness :
  match exec_all Literal.engine Lcg.generator
          [Filter "" (1991, 2024) "" "" 1; Decade; AvgTracks;
           Discover 1991 2024 "Records" 9000]
          (@mkEnv Z [kaliber; no_year; molesta]
                  [kaliber; no_year; molesta] [] 5)
  with
  | Ok env' =>
      memo env' = [kaliber; no_year; molesta]
      /\ map loaded_fields (data env')
         = map loaded_fields [kaliber; no_year; molesta]
      /\ col decade (data env') = [Some (Some 1990); Some None; Some (Some 1990)]
  | Raise _ => False
  end.
Proof.
  destruct (exec_all Literal.engine Lcg.generator
              [Filter "" (1991, 2024) "" "" 1; Decade; AvgTracks;
               Discover 1991 2024 "Records" 9000]
              (@mkEnv Z [kaliber; no_year; molesta]
                      [kaliber; no_year; molesta] [] 5))
    as [env' | e] eqn:E.
  - destruct (@catalog_frame Literal.engine Lcg.generator _ _ _ E)
      as [Hm [Hl [_ Hd]]].
    split; [exact Hm |]. split; [exact Hl |].
    destruct Hd as [_ Hd]; [right; left; reflexivity |].
    exact Hd.
  - vm_compute in E. discriminate E.
Defined.

(** * Further properties of the script *)

(** ** Cutting a list into rows of equal size *)

Lemma firstn_add_skipn {A : Type} (a b : nat) (l : list A) :
  (firstn a l ++ firstn b (skipn a l))%list = firstn (a + b) l.
Proof.
  revert l; induction a as [| a IH]; intros l; simpl.
  - reflexivity.
  - destruct l as [| x l]; simpl.
    + rewrite firstn_nil. reflexivity.
    + rewrite IH. reflexivity.
Qed.

Lemma slice_chunk {A : Type} (l : list A) (k c : nat) :
  slice l (k * c) (k * c + c) = firstn c (skipn (k * c) l).
Proof. unfold slice. f_equal. lia. Qed.

Lemma concat_chunks {A : Type} (c : nat) (l : list A) (m : nat) :
  concat (map (fun k => slice l (k * c) (k * c + c)) (seq 0 m))
  = firstn (m * c) l.
Proof.
  induction m as [| m IH].
  - reflexivity.
  - rewrite seq_S, map_app, concat_app, IH. simpl.
    rewrite app_nil_r, slice_chunk, firstn_add_skipn. f_equal. lia.
Qed.

Lemma slice_chunk_length {A : Type} (l : list A) (k c : nat) :
  length (slice l (k * c) (k * c + c)) = Nat.min c (length l - k * c).
Proof. rewrite slice_chunk, length_firstn, length_skipn. reflexivity. Qed.

Lemma week_data_chunks (ds : list Z) :
  week_data ds
  = map (fun k => slice ds (k * 7) (k * 7 + 7)) (seq 0 ((length ds + 6) / 7)).
Proof.
  unfold week_data, range0. rewrite map_map.
  replace (length ds + 7 - 1)%nat with (length ds + 6)%nat by lia.
  reflexivity.
Qed.

Lemma ceil7 (n : nat) :
  (n <= (n + 6) / 7 * 7 /\ (n + 6) / 7 * 7 < n + 7)%nat.
Proof.
  pose proof (Nat.div_mod_eq (n + 6) 7).
  pose proof (Nat.mod_upper_bound (n + 6) 7 ltac:(lia)). lia.
Qed.

(** X1.  [week_data] cuts any list of dates into consecutive rows: put end
    to end the rows give the list back, there are ceil(n / 7) of them, and
    each holds between one and seven dates, seven unless it is the last. *)
Theorem week_data_partition :
  forall (ds : list Z),
    concat (week_data ds) = ds
    /\ length (week_data ds) = ((length ds + 6) / 7)%nat
    /\ (forall k week, nth_error (week_data ds) k = Some week ->
          (1 <= length week <= 7)%nat
          /\ ((S k < length (week_data ds))%nat -> length week = 7%nat)
          /\ week = slice ds (k * 7) (k * 7 + 7)).
Proof.
  intros ds. pose proof (ceil7 (length ds)) as [Hlo Hhi].
  rewrite week_data_chunks. split; [| split].
  - rewrite concat_chunks. apply firstn_all2. exact Hlo.
  - rewrite length_map, length_seq. reflexivity.
  - intros k week Hk. rewrite length_map, length_seq.
    rewrite nth_error_map in Hk.
    destruct (nth_error (seq 0 ((length ds + 6) / 7)) k) as [k' |] eqn:E;
      [| discriminate].
    assert (Hlt : (k < (length ds + 6) / 7)%nat).
    { pose proof (proj1 (nth_error_Some (seq 0 ((length ds + 6) / 7)) k)) as H.
      rewrite E, length_seq in H. apply H. discriminate. }
    assert (k' = k).
    { rewrite nth_error_seq in E.
      destruct (k <? (length ds + 6) / 7)%nat; [| discriminate].
      injection E as <-. reflexivity. }
    subst k'. simpl in Hk. injection Hk as <-.
    rewrite slice_chunk_length. repeat split; try lia.
Qed.

Lemma nth_error_firstn_below {A : Type} (n j : nat) (l : list A) :
  (j < n)%nat -> nth_error (firstn n l) j = nth_error l j.
Proof.
  revert j l; induction n as [| n IH]; intros j l Hj; [lia |].
  destruct l as [| x l]; [destruct j; reflexivity |].
  destruct j as [| j]; simpl; [reflexivity | apply IH; lia].
Qed.

(** X2.  [create_interactive_calendar] never raises, whatever the
    selection: it renders five rows; the cell of day [i] of the window
    (counting from 0) carries the date [today + i] and the entry [i mod 7]
    of the selection, or no album when the selection has no such entry.
    So no entry past the seventh is ever shown. *)
Theorem create_interactive_calendar_cells :
  forall (discover_data : DataFrame) (today : Z),
  exists weeks : list (list CalendarCell),
    create_interactive_calendar discover_data today = Ok weeks
    /\ map (@length CalendarCell) weeks = [7; 7; 7; 7; 2]%nat
    /\ map fst (concat weeks) = dates today
    /\ (forall i, (i < 30)%nat ->
          nth_error (concat weeks) i
          = Some (today + Z.of_nat i, nth_error discover_data (i mod 7)))
    /\ (forall date r, In (date, Some r) (concat weeks) ->
          In r (firstn 7 discover_data)).
Proof.
  intros discover_data today. eexists.
  split; [apply create_interactive_calendar_rows |].
  split; [reflexivity |]. split; [reflexivity |].
  assert (Hday : forall i, (i < 30)%nat ->
      nth_error (concat (map (fun w =>
          map (fun d => (today + Z.of_nat (7 * w + d), nth_error discover_data d))
              (seq 0 (if (w <? 4)%nat then 7 else 2))) (seq 0 5))) i
      = Some (today + Z.of_nat i, nth_error discover_data (i mod 7))).
  { intros i Hi. do 30 (destruct i as [| i]; [reflexivity |]). lia. }
  split; [exact Hday |].
  intros date r Hin. apply In_nth_error in Hin as [i Hi].
  assert (Hlt : (i < 30)%nat).
  { pose proof (proj1 (nth_error_Some _ i) ltac:(rewrite Hi; discriminate)) as H.
    exact H. }
  assert (Hi' : Some (date, Some r)
                = Some (today + Z.of_nat i, nth_error discover_data (i mod 7)))
    by (etransitivity; [symmetry; exact Hi | apply Hday; exact Hlt]).
  injection Hi' as _ Hr.
  pose proof (Nat.mod_upper_bound i 7 ltac:(lia)) as Hm.
  eapply nth_error_In. rewrite nth_error_firstn_below by exact Hm.
  symmetry. exact Hr.
Qed.

Lemma week_data_partition_witness :
  nth_error (week_data (dates 0)) 4 = Some [28; 29]
  /\ (1 <= length [28; 29] <= 7)%nat
  /\ [28; 29] = slice (dates 0) (4 * 7) (4 * 7 + 7).
Proof.
  split; [reflexivity |].
  destruct (proj2 (proj2 (week_data_partition (dates 0))) 4%nat [28; 29] eq_refl)
    as [Hlen [_ Hrow]].
  split; [exact Hlen | exact Hrow].
Defined.

Lemma create_interactive_calendar_cells_witness :
  exists weeks : list (list CalendarCell),
    create_interactive_calendar thirty 0 = Ok weeks
    /\ nth_error (concat weeks) 23 = Some (23, Some (numbered 2)).
Proof.
  destruct (create_interactive_calendar_cells thirty 0)
    as [weeks [Hrun [_ [_ [Hday _]]]]].
  exists weeks. split; [exact Hrun |].
  rewrite (Hday 23%nat ltac:(lia)). reflexivity.
Defined.

(** ** Pages *)

Lemma firstn_min_length {A : Type} (c : nat) (l : list A) :
  firstn (Nat.min c (length l)) l = firstn c l.
Proof.
  destruct (Nat.le_ge_cases c (length l)) as [H | H].
  - rewrite Nat.min_l by exact H. reflexivity.
  - rewrite Nat.min_r by exact H. rewrite !firstn_all2; auto.
Qed.

(** The page after [k] full pages, as a slice between bounds that are
    not negative. *)
Lemma page_rows_slice (rows : DataFrame) (k : nat) :
  page_rows rows (Z.of_nat k + 1) = slice rows (k * 20) (k * 20 + 20).
Proof.
  unfold page_rows, iloc_slice, end_idx, start_idx, results_per_page, slice_bound.
  cbv zeta.
  replace ((Z.of_nat k + 1 - 1) * 20) with (Z.of_nat (k * 20)) by lia.
  replace (Z.of_nat (k * 20) <? 0) with false by (symmetry; apply Z.ltb_ge; lia).
  replace (Z.of_nat (k * 20) + 20 <? 0) with false
    by (symmetry; apply Z.ltb_ge; lia).
  rewrite slice_chunk. unfold slice.
  destruct (Nat.le_gt_cases (length rows) (k * 20)) as [H | H].
  - rewrite !Z.min_r by lia. rewrite !Nat2Z.id.
    rewrite (skipn_all2 rows (n := k * 20)) by exact H.
    rewrite skipn_all. rewrite !firstn_nil. reflexivity.
  - rewrite (Z.min_l (Z.of_nat (k * 20))) by lia. rewrite Nat2Z.id.
    rewrite <- (firstn_min_length 20 (skipn (k * 20) rows)), length_skipn.
    f_equal. lia.
Qed.

(** X3.  [total_pages] is the number of rows divided by 20 and rounded
    up, and the pages cut the filtered rows without loss: the pages
    1 .. total_pages put end to end are the filtered rows, each of them
    holds between 1 and 20 rows, and every page number above total_pages
    shows an empty table instead of raising. *)
Theorem page_rows_partition :
  forall (rows : DataFrame),
    20 * (total_pages (Z.of_nat (length rows)) - 1)
      < Z.of_nat (length rows) <= 20 * total_pages (Z.of_nat (length rows))
    /\ concat (map (fun p => page_rows rows (Z.of_nat p))
                (seq 1 (Z.to_nat (total_pages (Z.of_nat (length rows))))))
    = rows
    /\ (forall page, 1 <= page <= total_pages (Z.of_nat (length rows)) ->
          (1 <= length (page_rows rows page) <= 20)%nat)
    /\ (forall page, total_pages (Z.of_nat (length rows)) < page ->
          page_rows rows page = []).
Proof.
  intros rows.
  pose proof (@total_pages_ceil (Z.of_nat (length rows)) ltac:(lia)) as Hceil.
  set (T := total_pages (Z.of_nat (length rows))) in *.
  split; [exact Hceil |]. split; [| split].
  - rewrite <- seq_shift, map_map.
    rewrite map_ext with (g := fun k => slice rows (k * 20) (k * 20 + 20)).
    + rewrite concat_chunks. apply firstn_all2. lia.
    + intros k. rewrite Nat2Z.inj_succ. apply page_rows_slice.
  - intros page Hp.
    replace page with (Z.of_nat (Z.to_nat (page - 1)) + 1) by lia.
    rewrite page_rows_slice, slice_chunk_length. lia.
  - intros page Hp.
    replace page with (Z.of_nat (Z.to_nat (page - 1)) + 1) by lia.
    rewrite page_rows_slice, slice_chunk.
    rewrite skipn_all2 by lia. apply firstn_nil.
Qed.

Lemma page_rows_partition_witness :
  (1 <= length (page_rows thirty 2) <= 20)%nat
  /\ length (page_rows thirty 2) = 10%nat
  /\ page_rows thirty 3 = [].
Proof.
  destruct (page_rows_partition thirty) as [_ [_ [Hin Hout]]].
  split; [apply Hin; vm_compute; split; discriminate |].
  split; [reflexivity |].
  apply Hout. vm_compute. reflexivity.
Defined.


(** ** The year text *)

Lemma replace_comma_app (a b : string) :
  replace_comma (a ++ b) = (replace_comma a ++ replace_comma b)%string.
Proof.
  induction a as [| c a IH]; simpl.
  - reflexivity.
  - destruct (Ascii.eqb c comma); simpl; congruence.
Qed.

Lemma int_digits_not_ascii (x : string) :
  all_chars is_ascii_digit x = false ->
  forall acc, int_digits acc x = Raise ValueError.
Proof.
  induction x as [| c x IH]; simpl; intros H acc.
  - discriminate.
  - unfold is_ascii_digit in H.
    destruct (decimal_value c) as [d |]; simpl in H; [auto | reflexivity].
Qed.

Lemma decimal_value_bounds (c : ascii) (d : Z) :
  decimal_value c = Some d -> 0 <= d <= 9.
Proof.
  unfold decimal_value.
  destruct ((48 <=? Z.of_nat (nat_of_ascii c)) && (Z.of_nat (nat_of_ascii c) <=? 57))
    eqn:E; [| discriminate].
  apply andb_true_iff in E as [E1 E2]. apply Z.leb_le in E1, E2.
  intros H. injection H as <-. lia.
Qed.

Lemma int_digits_bounds (x : string) :
  forall acc n,
    int_digits acc x = Ok n ->
    acc * 10 ^ Z.of_nat (String.length x) <= n
    < (acc + 1) * 10 ^ Z.of_nat (String.length x).
Proof.
  induction x as [| c x IH]; intros acc n H.
  - simpl in H. injection H as <-. simpl. lia.
  - cbn [int_digits] in H.
    destruct (decimal_value c) as [d |] eqn:Ed; [| discriminate].
    apply decimal_value_bounds in Ed. apply IH in H.
    change (String.length (String c x)) with (S (String.length x)).
    rewrite Nat2Z.inj_succ, Z.pow_succ_r by lia.
    set (P := 10 ^ Z.of_nat (String.length x)) in *.
    assert (HP : 0 < P) by (apply Z.pow_pos_nonneg; lia).
    assert (0 <= d * P) by (apply Z.mul_nonneg_nonneg; lia).
    assert (0 <= (9 - d) * P) by (apply Z.mul_nonneg_nonneg; lia).
    lia.
Qed.

Lemma int_ascii (t : string) :
  isdigit t = true ->
  (String.length t <= max_str_digits)%nat ->
  all_chars is_ascii_digit t = true ->
  exists n, int t = Ok n.
Proof.
  intros Hd Hlen Ha. destruct t as [| c t]; [discriminate Hd |].
  unfold int.
  replace (max_str_digits <? String.length (String c t))%nat with false
    by (symmetry; apply Nat.ltb_ge; exact Hlen).
  apply int_digits_ascii. exact Ha.
Qed.

Lemma int_too_long (t : string) :
  isdigit t = true ->
  (max_str_digits < String.length t)%nat ->
  int t = Raise ValueError.
Proof.
  intros Hd Hlen. destruct t as [| c t]; [discriminate Hd |].
  unfold int.
  replace (max_str_digits <? String.length (String c t))%nat with true
    by (symmetry; apply Nat.ltb_lt; exact Hlen).
  reflexivity.
Qed.

Lemma int_not_ascii (t : string) :
  isdigit t = true -> all_chars is_ascii_digit t = false ->
  int t = Raise ValueError.
Proof.
  intros Hd Ha. destruct t as [| c t]; [discriminate Hd |].
  unfold int. destruct (max_str_digits <? String.length (String c t))%nat;
    [reflexivity |].
  apply int_digits_not_ascii. exact Ha.
Qed.

(** X4.  On a text of this model (code points below 256) the lambda of
    line 36 raises in two cases only, and then with ValueError: the text
    without its commas passes [isdigit] and either is not made of the
    digits '0' .. '9' alone (it holds a superscript digit) or is longer
    than the 4300 digits that [int] accepts.  A missing text, a text that
    is not all digits and a text of at most 4300 plain digits never
    raise. *)
Theorem year_lambda_raises :
  forall (x : option string) (e : exn),
    year_lambda x = Raise e
    <-> e = ValueError
        /\ exists s, x = Some s
                     /\ isdigit (replace_comma s) = true
                     /\ (all_chars is_ascii_digit (replace_comma s) = false
                         \/ (max_str_digits < String.length (replace_comma s))%nat).
Proof.
  intros x e. split.
  - intros H. destruct x as [s |]; [| discriminate H].
    unfold year_lambda in H.
    destruct (isdigit (replace_comma s)) eqn:Ed; [| discriminate H].
    destruct (all_chars is_ascii_digit (replace_comma s)) eqn:Ea.
    + destruct (Nat.le_gt_cases (String.length (replace_comma s)) max_str_digits)
        as [Hlen | Hlen].
      * destruct (int_ascii _ Ed Hlen Ea) as [n Hn]. rewrite Hn in H.
        discriminate H.
      * rewrite (int_too_long _ Ed Hlen) in H. injection H as <-.
        split; [reflexivity |]. exists s. auto.
    + rewrite (int_not_ascii _ Ed Ea) in H. injection H as <-.
      split; [reflexivity |]. exists s. auto.
  - intros [-> [s [-> [Ed [Ea | Hlen]]]]]; unfold year_lambda; rewrite Ed.
    + rewrite (int_not_ascii _ Ed Ea). reflexivity.
    + rewrite (int_too_long _ Ed Hlen). reflexivity.
Qed.

(** X5.  Commas count for nothing, wherever they stand: a text with a
    comma and the same text without it give the same year, or the same
    exception. *)
Theorem year_lambda_ignores_commas :
  forall (a b : string),
    year_lambda (Some (a ++ "," ++ b)%string) = year_lambda (Some (a ++ b)%string).
Proof.
  intros a b. unfold year_lambda.
  rewrite !replace_comma_app. reflexivity.
Qed.

(** X6.  A year that the lambda parses is never negative, and it has no
    more decimal digits than the text has characters other than commas. *)
Theorem year_lambda_value_bounds :
  forall (s : string) (n : Z),
    year_lambda (Some s) = Ok (Some n) ->
    0 <= n < 10 ^ Z.of_nat (String.length (replace_comma s)).
Proof.
  intros s n H. simpl in H.
  destruct (isdigit (replace_comma s)); [| discriminate].
  destruct (replace_comma s) as [| c t] eqn:Et; [discriminate |].
  unfold int in H. apply bind_Ok in H as [m [Hm H]]. injection H as <-.
  destruct (max_str_digits <? String.length (String c t))%nat; [discriminate Hm |].
  apply int_digits_bounds in Hm. lia.
Qed.

Lemma year_lambda_value_bounds_witness :
  year_lambda (Some "1,999") = Ok (Some 1999)
  /\ 0 <= 1999 < 10 ^ Z.of_nat (String.length (replace_comma "1,999")).
Proof.
  split; [reflexivity |].
  apply (@year_lambda_value_bounds "1,999" 1999). reflexivity.
Defined.

Lemma year_lambda_raises_witness :
  year_lambda (Some superscript_two) = Raise ValueError.
Proof.
  apply (proj2 (year_lambda_raises (Some superscript_two) ValueError)).
  split; [reflexivity |]. exists superscript_two.
  split; [reflexivity |]. split; [reflexivity |]. left. reflexivity.
Defined.

(** ** The loader *)

Lemma year_lambda_exception (x : option string) (e : exn) :
  year_lambda x = Raise e -> e = ValueError.
Proof.
  destruct x as [s |]; [| discriminate]. unfold year_lambda.
  destruct (isdigit (replace_comma s)); [| discriminate].
  unfold int. destruct (replace_comma s) as [| c t].
  - simpl. intros H. injection H as <-. reflexivity.
  - destruct (max_str_digits <? String.length (String c t))%nat;
      [simpl; intros H; injection H as <-; reflexivity |].
    generalize 0. generalize (String c t). intros t'.
    induction t' as [| c' t' IH]; intros acc; simpl.
    + discriminate.
    + destruct (decimal_value c'); simpl.
      * apply IH.
      * intros H. injection H as <-. reflexivity.
Qed.

Lemma mapM_Raise {A B : Type} (f : A -> result B) (l : list A) (e : exn) :
  mapM f l = Raise e -> exists a, In a l /\ f a = Raise e.
Proof.
  induction l as [| a l IH]; simpl; intros H.
  - discriminate.
  - destruct (f a) as [b |] eqn:Ea; simpl in H.
    + destruct (mapM f l) as [bs |] eqn:El; simpl in H; [discriminate |].
      destruct (IH H) as [a' [Hin Ha']]. exists a'. auto.
    + injection H as <-. exists a. auto.
Qed.

Lemma mapM_Ok_each {A B : Type} (f : A -> result B) (l : list A) (bs : list B) :
  mapM f l = Ok bs -> forall a, In a l -> exists b, f a = Ok b.
Proof.
  revert bs; induction l as [| a0 l IH]; simpl; intros bs H a Hin.
  - destruct Hin.
  - apply bind_Ok in H as [b [Hb H]]. apply bind_Ok in H as [bs' [Hbs _]].
    destruct Hin as [<- | Hin]; [exists b; exact Hb | eapply IH; eassumption].
Qed.

Lemma year_or_none_Ok (x : option string) (y : option Z) :
  year_lambda x = Ok y -> year_lambda x = Ok (year_or_none x).
Proof. unfold year_or_none. intros ->. reflexivity. Qed.

(** X7.  What [load_data] returns.  If [read_csv] raises, the empty frame
    and the exception as notice.  If the lambda returns on every year text,
    one row per row read, in the same order, with the six other fields
    as read, no ['decade'] column, and the number of rows as notice.  If
    the lambda raises on some year text, the empty frame and ValueError:
    no row survives. *)
Theorem load_data_outcome :
  (forall e, load_data (Raise e) = ([], Error e))
  /\ (forall raw,
        (forall r, In r raw -> exists y, year_lambda (raw_year r) = Ok y) ->
        load_data (Ok raw)
        = (map (fun r => with_year r (year_or_none (raw_year r))) raw,
           Info (length raw)))
  /\ (forall raw r e,
        In r raw -> year_lambda (raw_year r) = Raise e ->
        load_data (Ok raw) = ([], Error ValueError)).
Proof.
  split; [reflexivity |]. split.
  - intros raw Hall. unfold load_data, apply_year. simpl.
    rewrite mapM_total with (g := year_or_none).
    + simpl. rewrite (map_map raw_year year_or_none), combine_map_self, map_map,
        length_map. reflexivity.
    + intros x Hx. apply in_map_iff in Hx as [r [<- Hr]].
      destruct (Hall r Hr) as [y Hy]. eapply year_or_none_Ok. exact Hy.
  - intros raw r e Hr He. unfold load_data, apply_year. simpl.
    destruct (mapM year_lambda (map raw_year raw)) as [years | e'] eqn:E; simpl.
    + destruct (mapM_Ok_each _ _ E (raw_year r)) as [y Hy];
        [apply in_map; exact Hr | congruence].
    + apply mapM_Raise in E as [x [_ Hx]].
      apply year_lambda_exception in Hx. subst e'. reflexivity.
Qed.

Lemma load_data_outcome_witness :
  load_data (Ok [mkRaw (Some "Kaliber 44") (Some "Ksiega Tajemnicza. Prolog")
                       (Some "1,996") (Some "S.P. Records") (Some 17) None None;
                 mkRaw (Some "Liroy") (Some "Alboom") (Some "199x") (Some "BMG")
                       None None None])
  = ([mkRow (Some "Kaliber 44") (Some "Ksiega Tajemnicza. Prolog")
            (Some 1996) (Some "S.P. Records") (Some 17) None None None;
      mkRow (Some "Liroy") (Some "Alboom") None (Some "BMG") None None None None],
     Info 2).
Proof.
  rewrite (proj1 (proj2 load_data_outcome)).
  - reflexivity.
  - intros r [<- | [<- | []]]; eexists; reflexivity.
Defined.

(** ** The three filters *)

Lemma filtered_data_valid (re : ReEngine) (data : DataFrame) (af : string)
    (yf : Z * Z) (lf tf : string) (rows : DataFrame) :
  filtered_data re data af yf lf tf = Ok rows ->
  browse_patterns_valid re af lf tf = true.
Proof.
  intros H. unfold filtered_data in H.
  apply bind_Ok in H as [m1 [H1 H]]. apply str_contains_Ok_valid in H1.
  apply bind_Ok in H as [m2 [H2 H]]. apply str_contains_Ok_valid in H2.
  apply bind_Ok in H as [m3 [H3 H]]. apply str_contains_Ok_valid in H3.
  apply bind_Ok in H as [m4 [H4 H]]. apply str_contains_Ok_valid in H4.
  apply bind_Ok in H as [m5 [H5 H]]. apply str_contains_Ok_valid in H5.
  unfold browse_patterns_valid. rewrite H1, H2, H3, H4, H5. reflexivity.
Qed.

Lemma filtered_data_invalid (re : ReEngine) (data : DataFrame) (af : string)
    (yf : Z * Z) (lf tf : string) :
  browse_patterns_valid re af lf tf = false ->
  filtered_data re data af yf lf tf = Raise ReError.
Proof.
  unfold browse_patterns_valid, filtered_data, str_contains. intros H.
  destruct (re_valid re af); [| reflexivity].
  destruct (re_valid re lf); [| reflexivity].
  destruct (re_valid re tf); [| reflexivity].
  destruct (re_valid re "Various"); [| reflexivity].
  destruct (re_valid re "Dee Jay Mix Club|Nielegal"); [discriminate | reflexivity].
Qed.

Lemma script_data_failed_load (e : exn) :
  script_data (load_data (Raise e)) = NoColumns.
Proof. reflexivity. Qed.

(** X8.  The browse filter of lines 111-118, mask by mask, does what a
    row-by-row filter does.  On a frame with the columns of the file, when
    the three texts and the two fixed patterns compile it returns the
    records that satisfy all six predicates, in catalog order, and when one
    of them does not compile it raises and returns no record at all.  On
    the frame without columns, which is what the script holds after a
    failed load, it raises KeyError whatever the texts are. *)
Theorem filtered_data_row_by_row :
  forall (re : ReEngine) (data : Frame) (artist_filter : string)
         (year_filter : Z * Z) (label_filter track_filter : string),
    filtered_data re data artist_filter year_filter label_filter track_filter
    = match data with
      | NoColumns => Raise KeyError
      | Columns rows =>
          if browse_patterns_valid re artist_filter label_filter track_filter
          then Ok (filter (browse_match re artist_filter year_filter label_filter
                             track_filter) rows)
          else Raise ReError
      end
    /\ forall e,
         filtered_data re (script_data (load_data (Raise e)))
           artist_filter year_filter label_filter track_filter
         = Raise KeyError.
Proof.
  intros re data af yf lf tf. split; [| reflexivity].
  destruct data as [| rows]; [reflexivity |].
  destruct (browse_patterns_valid re af lf tf) eqn:E.
  - unfold browse_patterns_valid in E. rewrite !andb_true_iff in E.
    destruct E as [[[[Ha Hl] Ht] Hv] Hb].
    apply filtered_data_rows; assumption.
  - apply filtered_data_invalid. exact E.
Qed.

Lemma filter_again {A : Type} (p : A -> bool) (l : list A) :
  filter p (filter p l) = filter p l.
Proof.
  rewrite filter_filter_andb. apply filter_ext. intros a. apply andb_diag.
Qed.

(** X9.  Filtering twice is filtering once: the browse filter applied to
    its own result, with the same texts and years, returns that result. *)
Theorem filtered_data_idempotent :
  forall (re : ReEngine) (data : DataFrame) (artist_filter : string)
         (year_filter : Z * Z) (label_filter track_filter : string)
         (rows : DataFrame),
    filtered_data re data artist_filter year_filter label_filter track_filter
    = Ok rows ->
    filtered_data re rows artist_filter year_filter label_filter track_filter
    = Ok rows.
Proof.
  intros re data af yf lf tf rows H.
  pose proof (filtered_data_valid _ _ _ _ _ _ H) as Hv.
  apply filtered_data_Ok in H. subst rows.
  unfold browse_patterns_valid in Hv. rewrite !andb_true_iff in Hv.
  destruct Hv as [[[[Ha Hl] Ht] Hv] Hb].
  rewrite (@filtered_data_rows re _ af yf lf tf Ha Hl Ht Hv Hb).
  rewrite filter_again. reflexivity.
Qed.

Lemma filtered_data_idempotent_witness :
  filtered_data Literal.engine [kaliber; skladanka; molesta; paktofonika]
    "a" (1991, 1999) "Records" "" = Ok [kaliber; molesta]
  /\ filtered_data Literal.engine [kaliber; molesta]
       "a" (1991, 1999) "Records" "" = Ok [kaliber; molesta].
Proof.
  split; [vm_compute; reflexivity |].
  apply (@filtered_data_idempotent Literal.engine
           [kaliber; skladanka; molesta; paktofonika] "a" (1991, 1999)
           "Records" "" [kaliber; molesta]).
  vm_compute. reflexivity.
Defined.

Lemma filtered_stats_rows (re : ReEngine) (data : DataFrame) (range : Z * Z) :
  re_valid re "Various" = true ->
  re_valid re "Dee Jay Mix Club|Nielegal" = true ->
  filtered_stats re data range
  = Ok (filter (discover_match re (fst range) (snd range) "") data).
Proof.
  intros Hv Hb. unfold filtered_stats.
  rewrite (str_contains_col re artist _ _ Hv); simpl.
  rewrite (str_contains_col re label _ _ Hb); simpl.
  rewrite between_col, !mask_not_map, !mask_and_map, loc_map.
  f_equal. apply filter_ext. intros r. unfold discover_match. simpl.
  rewrite andb_true_r. reflexivity.
Qed.

Lemma filtered_stats_unfold (re : ReEngine)
    (data : DataFrame) (lower upper : Z) :
  filtered_stats re data (lower, upper) = discover_filtered re data lower upper "".
Proof.
  unfold filtered_stats, discover_filtered.
  destruct (str_contains re (col artist data) "Various"); [| reflexivity].
  destruct (str_contains re (col label data) "Dee Jay Mix Club|Nielegal");
    reflexivity.
Qed.

(** X10.  The statistics filter of lines 185-189 and the discovery filter
    called with an empty label text are the same filter: same rows, or the
    same exception.  When the two fixed patterns compile these are the
    records with a known year inside the range that pass the two standing
    exclusions, a missing artist or label being no obstacle. *)
Theorem filtered_stats_is_discover_without_label :
  forall (re : ReEngine) (data : DataFrame) (lower upper : Z),
    filtered_stats re data (lower, upper)
    = discover_filtered re data lower upper ""
    /\ (re_valid re "Various" = true ->
        re_valid re "Dee Jay Mix Club|Nielegal" = true ->
        filtered_stats re data (lower, upper)
        = Ok (filter (fun r => in_range (year r) lower upper && standing re r)
                     data)).
Proof.
  intros re data lower upper. split.
  - apply filtered_stats_unfold.
  - intros Hv Hb. rewrite (@filtered_stats_rows re data (lower, upper) Hv Hb).
    f_equal. apply filter_ext. intros r. unfold discover_match, standing. simpl.
    rewrite andb_true_r, andb_assoc. reflexivity.
Qed.

Lemma filtered_stats_is_discover_without_label_witness :
  filtered_stats Literal.engine [kaliber; skladanka; no_year; no_label] (1990, 2024)
  = Ok [kaliber; no_label].
Proof.
  rewrite (proj2 (filtered_stats_is_discover_without_label Literal.engine
                    [kaliber; skladanka; no_year; no_label] 1990 2024)
             eq_refl eq_refl).
  vm_compute. reflexivity.
Defined.

Lemma standing_of_discover_match (re : ReEngine) (sy ey : Z) (lf : string) (r : Row) :
  discover_match re sy ey lf r = true -> standing re r = true.
Proof.
  unfold discover_match, standing. rewrite !andb_true_iff. tauto.
Qed.

Lemma standing_of_browse_match (re : ReEngine) (af : string) (yf : Z * Z)
    (lf tf : string) (r : Row) :
  browse_match re af yf lf tf r = true -> standing re r = true.
Proof.
  unfold browse_match, standing. rewrite !andb_true_iff. tauto.
Qed.

(** X11.  Whatever the user types, no filter of the script lets a
    compilation or a record of the two banned labels through: every row
    that the browse filter, the discovery filter or the statistics filter
    returns is a row of the catalog whose artist does not match "Various"
    and whose label does not match "Dee Jay Mix Club|Nielegal". *)
Theorem filters_apply_standing_exclusions :
  forall (re : ReEngine) (data rows : DataFrame) (r : Row),
    (exists af yf lf tf, filtered_data re data af yf lf tf = Ok rows)
    \/ (exists sy ey lf, discover_filtered re data sy ey lf = Ok rows)
    \/ (exists range, filtered_stats re data range = Ok rows) ->
    In r rows ->
    In r data
    /\ contains re "Various" (artist r) = false
    /\ contains re "Dee Jay Mix Club|Nielegal" (label r) = false.
Proof.
  intros re data rows r H Hin.
  assert (Hs : In r data /\ standing re r = true).
  { destruct H as [[af [yf [lf [tf H]]]] | [[sy [ey [lf H]]] | [[lo hi] H]]].
    - apply filtered_data_Ok in H. subst rows.
      apply filter_In in Hin as [Hd Hm].
      split; [exact Hd | eapply standing_of_browse_match; exact Hm].
    - apply discover_filtered_Ok in H. subst rows.
      apply filter_In in Hin as [Hd Hm].
      split; [exact Hd | eapply standing_of_discover_match; exact Hm].
    - rewrite filtered_stats_unfold in H.
      apply discover_filtered_Ok in H. subst rows.
      apply filter_In in Hin as [Hd Hm].
      split; [exact Hd | eapply standing_of_discover_match; exact Hm]. }
  destruct Hs as [Hd Hs]. unfold standing in Hs.
  apply andb_true_iff in Hs as [H1 H2].
  apply negb_true_iff in H1, H2. auto.
Qed.

Lemma filters_apply_standing_exclusions_witness :
  filtered_stats Literal.engine [kaliber; skladanka; no_year] (1990, 2024)
  = Ok [kaliber]
  /\ In kaliber [kaliber; skladanka; no_year]
  /\ contains Literal.engine "Various" (artist kaliber) = false
  /\ contains Literal.engine "Dee Jay Mix Club|Nielegal" (label kaliber) = false.
Proof.
  split; [vm_compute; reflexivity |].
  apply (@filters_apply_standing_exclusions Literal.engine
           [kaliber; skladanka; no_year] [kaliber] kaliber).
  - right. right. exists (1990, 2024). vm_compute. reflexivity.
  - left. reflexivity.
Defined.

Lemma discover_filtered_invalid (re : ReEngine) (data : DataFrame)
    (sy ey : Z) (lf : string) :
  discover_patterns_valid re lf = false ->
  discover_filtered re data sy ey lf = Raise ReError.
Proof.
  unfold discover_patterns_valid, discover_filtered, str_contains. intros H.
  destruct (re_valid re "Various"); [| reflexivity].
  destruct (re_valid re "Dee Jay Mix Club|Nielegal"); [| reflexivity].
  simpl in *. destruct (truthy lf); [| discriminate].
  simpl in H. rewrite H. reflexivity.
Qed.

Lemma discover_match_label (re : ReEngine) (sy ey : Z) (lf : string) (r : Row) :
  truthy lf = true -> discover_match re sy ey lf r = true -> label r <> None.
Proof.
  unfold discover_match. intros ->. simpl. rewrite !andb_true_iff.
  intros [_ H]. eapply contains_present. exact H.
Qed.

(** X12.  The discovery filter of lines 48-54 row by row.  It compiles the
    label text only when the text is not empty; when what it compiles is
    valid it returns, in catalog order, the records with a known year in
    the range that pass the two standing exclusions and, for a text that
    is not empty, whose label matches it; otherwise it raises.  So a record
    without a label is let through by the empty text, and by no other. *)
Theorem discover_filtered_row_by_row :
  forall (re : ReEngine) (data : DataFrame) (start_year end_year : Z)
         (label_filter : string),
    discover_filtered re data start_year end_year label_filter
    = (if discover_patterns_valid re label_filter
       then Ok (filter (discover_match re start_year end_year label_filter) data)
       else Raise ReError)
    /\ (forall r, discover_match re start_year end_year "" r
                  = in_range (year r) start_year end_year && standing re r)
    /\ (forall r, truthy label_filter = true ->
                  discover_match re start_year end_year label_filter r = true ->
                  label r <> None).
Proof.
  intros re data sy ey lf. split; [| split].
  - destruct (discover_patterns_valid re lf) eqn:E.
    + unfold discover_patterns_valid in E. rewrite !andb_true_iff in E.
      destruct E as [[Hv Hb] Hl]. apply discover_filtered_rows; try assumption.
      apply orb_true_iff in Hl as [Hl | Hl]; [left | right; exact Hl].
      apply negb_true_iff. exact Hl.
    + apply discover_filtered_invalid. exact E.
  - intros r. unfold discover_match, standing. simpl.
    rewrite andb_true_r, andb_assoc. reflexivity.
  - intros r. apply discover_match_label.
Qed.

Lemma discover_filtered_row_by_row_witness :
  discover_filtered Literal.engine [kaliber; no_label; skladanka] 1991 2024 ""
  = Ok [kaliber; no_label]
  /\ discover_filtered Literal.engine [kaliber; no_label; skladanka] 1991 2024 "S"
     = Ok [kaliber]
  /\ label kaliber <> None.
Proof.
  split; [vm_compute; reflexivity |]. split; [vm_compute; reflexivity |].
  apply (proj2 (proj2 (discover_filtered_row_by_row Literal.engine
                         [kaliber; no_label; skladanka] 1991 2024 "S")) kaliber).
  - reflexivity.
  - vm_compute. reflexivity.
Defined.

(** X13.  The discovery tab is at least as generous as the browse tab: for
    the same years and the same label text, whenever the browse filter
    returns, the discovery filter returns too, and every record that the
    browse filter found is among those the discovery filter finds, whatever
    the artist text and the track text were. *)
Theorem browse_rows_are_discover_rows :
  forall (re : ReEngine) (data : DataFrame) (artist_filter : string)
         (lower upper : Z) (label_filter track_filter : string)
         (rows : DataFrame),
    filtered_data re data artist_filter (lower, upper) label_filter track_filter
    = Ok rows ->
    exists rows',
      discover_filtered re data lower upper label_filter = Ok rows'
      /\ forall r, In r rows -> In r rows'.
Proof.
  intros re data af lower upper lf tf rows H.
  pose proof (filtered_data_valid _ _ _ _ _ _ H) as Hv.
  apply filtered_data_Ok in H. subst rows.
  unfold browse_patterns_valid in Hv. rewrite !andb_true_iff in Hv.
  destruct Hv as [[[[Ha Hl] Ht] Hv] Hb].
  eexists. split.
  - apply discover_filtered_rows; [exact Hv | exact Hb | right; exact Hl].
  - intros r Hin. apply filter_In in Hin as [Hd Hm]. apply filter_In.
    split; [exact Hd |].
    unfold browse_match in Hm. rewrite !andb_true_iff in Hm.
    destruct Hm as [[[[[_ Hy] Hlab] _] Hnv] Hnb]. simpl in Hy.
    unfold discover_match. rewrite Hy, Hnv, Hnb, Hlab, orb_true_r. reflexivity.
Qed.

Lemma browse_rows_are_discover_rows_witness :
  filtered_data Literal.engine [kaliber; no_tracklist; molesta; skladanka]
    "Kaliber" (1991, 2024) "" "Plus" = Ok [kaliber]
  /\ exists rows',
       discover_filtered Literal.engine [kaliber; no_tracklist; molesta; skladanka]
         1991 2024 "" = Ok rows'
       /\ forall r, In r [kaliber] -> In r rows'.
Proof.
  split; [vm_compute; reflexivity |].
  apply (@browse_rows_are_discover_rows Literal.engine
           [kaliber; no_tracklist; molesta; skladanka] "Kaliber" 1991 2024 ""
           "Plus" [kaliber]).
  vm_compute. reflexivity.
Defined.

(** ** The selection *)

Lemma generate_discover_list_any_generator (re : ReEngine) (rng : Generator)
    (data : DataFrame) (sy ey : Z) (lf : string) (g1 g2 : RandomState rng) :
  fmap fst (generate_discover_list re rng g1 data sy ey lf)
  = fmap fst (generate_discover_list re rng g2 data sy ey lf).
Proof.
  unfold generate_discover_list.
  destruct (discover_filtered re data sy ey lf) as [filtered | e]; simpl.
  - apply sample_seeded_same.
  - reflexivity.
Qed.

Lemma generate_discover_list_positions (re : ReEngine) (rng : Generator)
    (g : RandomState rng) (data : DataFrame) (sy ey : Z) (lf : string) :
  without_replacement rng ->
  discover_patterns_valid re lf = true ->
  exists selection positions,
    generate_discover_list re rng g data sy ey lf = Ok (selection, g)
    /\ length positions
       = Nat.min 30 (length (filter (discover_match re sy ey lf) data))
    /\ NoDup positions
    /\ Forall2 (fun i r => nth_error (filter (discover_match re sy ey lf) data) i
                           = Some r) positions selection.
Proof.
  intros law Hvalid. unfold discover_patterns_valid in Hvalid.
  rewrite !andb_true_iff in Hvalid. destruct Hvalid as [[Hv Hb] Hl].
  assert (Hl' : truthy lf = false \/ re_valid re lf = true).
  { apply orb_true_iff in Hl as [Hl | Hl]; [left | right; exact Hl].
    apply negb_true_iff. exact Hl. }
  unfold generate_discover_list.
  rewrite (@discover_filtered_rows re data sy ey lf Hv Hb Hl'). cbn [bind].
  apply sample_without_replacement; [exact law | apply Nat.le_min_r].
Qed.

Lemma Forall2_seq_nth {A : Type} (m : list A) :
  forall (pre l : list A),
    Forall2 (fun i r => nth_error (pre ++ m) i = Some r)
            (seq (length pre) (length m)) l ->
    l = m.
Proof.
  induction m as [| x m IH]; intros pre l H; simpl in H.
  - inversion H. reflexivity.
  - inversion H as [| i r ps rs Hr Hrest]; subst.
    rewrite nth_error_app2, Nat.sub_diag in Hr by lia. simpl in Hr.
    injection Hr as <-. f_equal.
    apply (IH (pre ++ [x])%list).
    rewrite <- app_assoc, length_app. simpl.
    replace (length pre + 1)%nat with (S (length pre)) by lia. exact Hrest.
Qed.

Lemma Forall2_positions_inside {A : Type} (m : list A) (ps : list nat) (rs : list A) :
  Forall2 (fun i r => nth_error m i = Some r) ps rs ->
  forall i, In i ps -> (i < length m)%nat.
Proof.
  induction 1 as [| i r ps rs Hi _ IH]; intros j Hj.
  - destruct Hj.
  - destruct Hj as [<- | Hj]; [| auto].
    apply nth_error_Some. rewrite Hi. discriminate.
Qed.

Lemma Forall2_rows_from {A : Type} (m : list A) (ps : list nat) (rs : list A) :
  Forall2 (fun i r => nth_error m i = Some r) ps rs ->
  forall r, In r rs -> exists i, In i ps /\ nth_error m i = Some r.
Proof.
  induction 1 as [| i r0 ps rs Hi _ IH]; intros r Hr.
  - destruct Hr.
  - destruct Hr as [<- | Hr].
    + exists i. split; [left; reflexivity | exact Hi].
    + destruct (IH r Hr) as [j [Hj Hn]]. exists j. split; [right |]; assumption.
Qed.

Lemma Forall2_rows_NoDup {A : Type} (m : list A) (ps : list nat) (rs : list A) :
  NoDup m -> NoDup ps ->
  Forall2 (fun i r => nth_error m i = Some r) ps rs ->
  NoDup rs.
Proof.
  intros Hm Hnd Hrows. revert Hnd.
  induction Hrows as [| i r ps rs Hi Hrest IH]; intros Hnd.
  - constructor.
  - inversion Hnd as [| ? ? Hfresh Hnd']; subst.
    constructor; [| apply IH; exact Hnd'].
    intros Hin. destruct (@Forall2_rows_from A m ps rs Hrest r Hin) as [j [Hj Hn]].
    assert (i = j).
    { apply (proj1 (NoDup_nth_error m) Hm).
      - apply nth_error_Some. rewrite Hi. discriminate.
      - congruence. }
    subst j. contradiction.
Qed.

(** X14.  When thirty records or fewer match, the selection is the whole
    matching subset in another order: every matching record is selected,
    as often as it matches (for a generator that draws without
    replacement and patterns that compile). *)
Theorem generate_discover_list_takes_all :
  forall (re : ReEngine) (rng : Generator) (g : RandomState rng)
         (data : DataFrame) (start_year end_year : Z) (label_filter : string),
    without_replacement rng ->
    discover_patterns_valid re label_filter = true ->
    (length (filter (discover_match re start_year end_year label_filter) data)
     <= 30)%nat ->
    exists selection,
      generate_discover_list re rng g data start_year end_year label_filter
      = Ok (selection, g)
      /\ Permutation selection
           (filter (discover_match re start_year end_year label_filter) data).
Proof.
  intros re rng g data sy ey lf law Hvalid Hsmall.
  destruct (@generate_discover_list_positions re rng g data sy ey lf law Hvalid)
    as [selection [positions [Hrun [Hlen [Hnd Hrows]]]]].
  set (matching := filter (discover_match re sy ey lf) data) in *.
  exists selection. split; [exact Hrun |].
  rewrite Nat.min_r in Hlen by exact Hsmall.
  assert (Hperm : Permutation positions (seq 0 (length matching))).
  { apply NoDup_Permutation_bis; [exact Hnd | rewrite length_seq; lia |].
    intros i Hi. apply in_seq. split; [lia |].
    simpl. eapply Forall2_positions_inside; eassumption. }
  destruct (Permutation_Forall2 Hperm Hrows) as [rows' [Hp Hrows']].
  apply (Forall2_seq_nth matching []) in Hrows'. subst rows'. exact Hp.
Qed.

Lemma generate_discover_list_takes_all_witness :
  without_replacement Lcg.generator
  /\ exists selection,
       generate_discover_list Literal.engine Lcg.generator 5
         [kaliber; skladanka; molesta; paktofonika; no_year] 1991 2024 ""
       = Ok (selection, 5)
       /\ Permutation selection [kaliber; molesta; paktofonika].
Proof.
  split; [exact Lcg_without_replacement |].
  apply (@generate_discover_list_takes_all Literal.engine Lcg.generator 5
           [kaliber; skladanka; molesta; paktofonika; no_year] 1991 2024 ""
           Lcg_without_replacement eq_refl).
  vm_compute. lia.
Defined.

(** X15.  No album is selected twice: if the catalog holds no record
    twice, neither does the selection (for a generator that draws without
    replacement and patterns that compile). *)
Theorem generate_discover_list_no_repeat :
  forall (re : ReEngine) (rng : Generator) (g : RandomState rng)
         (data : DataFrame) (start_year end_year : Z) (label_filter : string),
    without_replacement rng ->
    discover_patterns_valid re label_filter = true ->
    NoDup data ->
    exists selection,
      generate_discover_list re rng g data start_year end_year label_filter
      = Ok (selection, g)
      /\ NoDup selection.
Proof.
  intros re rng g data sy ey lf law Hvalid Hdata.
  destruct (@generate_discover_list_positions re rng g data sy ey lf law Hvalid)
    as [selection [positions [Hrun [_ [Hnd Hrows]]]]].
  exists selection. split; [exact Hrun |].
  eapply Forall2_rows_NoDup; [| exact Hnd | exact Hrows].
  apply NoDup_filter. exact Hdata.
Qed.

Lemma generate_discover_list_no_repeat_witness :
  without_replacement Lcg.generator
  /\ NoDup [kaliber; skladanka; molesta; paktofonika]
  /\ exists selection,
       generate_discover_list Literal.engine Lcg.generator 5
         [kaliber; skladanka; molesta; paktofonika] 1991 2024 "Records"
       = Ok (selection, 5)
       /\ NoDup selection.
Proof.
  assert (Hd : NoDup [kaliber; skladanka; molesta; paktofonika]).
  { repeat constructor; simpl; intros H;
      repeat (destruct H as [H | H]; [discriminate H |]); exact H. }
  split; [exact Lcg_without_replacement |]. split; [exact Hd |].
  apply (@generate_discover_list_no_repeat Literal.engine Lcg.generator 5
           [kaliber; skladanka; molesta; paktofonika] 1991 2024 "Records"
           Lcg_without_replacement eq_refl Hd).
Defined.

(** ** The cache of the sampler *)

Lemma cache_consistent_nil (re : ReEngine) (rng : Generator) :
  cache_consistent re rng [].
Proof. intros data sy ey lf v H. discriminate H. Qed.

Lemma cache_consistent_cons (re : ReEngine) (rng : Generator) (c : Cache)
    (data : DataFrame) (sy ey : Z) (lf : string) (v : DataFrame)
    (g g' : RandomState rng) :
  cache_consistent re rng c ->
  generate_discover_list re rng g data sy ey lf = Ok (v, g') ->
  cache_consistent re rng (((data, sy, ey, lf), v) :: c).
Proof.
  intros Hc Hrun data2 sy2 ey2 lf2 v2 Hlook g2. cbn [cache_lookup] in Hlook.
  destruct (Key_eq_dec (data2, sy2, ey2, lf2) (data, sy, ey, lf)) as [E | _].
  - injection E as -> -> -> ->. injection Hlook as <-.
    rewrite (generate_discover_list_any_generator re rng data sy ey lf g2 g).
    rewrite Hrun. reflexivity.
  - apply Hc. exact Hlook.
Qed.

Lemma cached_equals_function (re : ReEngine) (rng : Generator) (c : Cache)
    (g : RandomState rng) (data : DataFrame) (sy ey : Z) (lf : string) :
  cache_consistent re rng c ->
  fmap (fun r => fst (fst r))
       (cached_generate_discover_list re rng c g data sy ey lf)
  = fmap fst (generate_discover_list re rng g data sy ey lf).
Proof.
  intros Hc. unfold cached_generate_discover_list.
  destruct (cache_lookup (data, sy, ey, lf) c) as [v |] eqn:E.
  - simpl. symmetry. apply (Hc data sy ey lf v E g).
  - destruct (generate_discover_list re rng g data sy ey lf) as [[v g1] | e];
      reflexivity.
Qed.

(** X16.  The cache cannot be told from the function.  Starting from a
    cache in which every entry is what the function returns for its key
    (the empty cache is one), a cached call gives the selection, or the
    exception, that the function itself gives for these arguments, whatever
    the state of the ambient generator; and the cache it leaves behind is
    again such a cache, with the call's key in it. *)
Theorem cached_generate_discover_list_transparent :
  forall (re : ReEngine) (rng : Generator),
    cache_consistent re rng []
    /\ forall (c : Cache) (g : RandomState rng) (data : DataFrame)
              (start_year end_year : Z) (label_filter : string),
         cache_consistent re rng c ->
         fmap (fun r => fst (fst r))
              (cached_generate_discover_list re rng c g data start_year end_year
                 label_filter)
         = fmap fst (generate_discover_list re rng g data start_year end_year
                       label_filter)
         /\ forall selection c' g',
              cached_generate_discover_list re rng c g data start_year end_year
                label_filter = Ok (selection, c', g') ->
              cache_consistent re rng c'
              /\ cache_lookup (data, start_year, end_year, label_filter) c'
                 = Some selection.
Proof.
  intros re rng. split; [apply cache_consistent_nil |].
  intros c g data sy ey lf Hc. unfold cached_generate_discover_list.
  destruct (cache_lookup (data, sy, ey, lf) c) as [v |] eqn:E.
  - split.
    + simpl. symmetry. apply (Hc data sy ey lf v E g).
    + intros selection c' g' H. injection H as <- <- _. auto.
  - split.
    + destruct (generate_discover_list re rng g data sy ey lf) as [[v g1] | e];
        reflexivity.
    + intros selection c' g' H.
      destruct (generate_discover_list re rng g data sy ey lf) as [[v g1] | e]
        eqn:Hrun; [| discriminate H].
      simpl in H. injection H as <- <- _. split.
      * eapply cache_consistent_cons; eassumption.
      * apply cache_lookup_head.
Qed.

Lemma cached_generate_discover_list_transparent_witness :
  fmap (fun r => fst (fst r))
       (cached_generate_discover_list Literal.engine Lcg.generator [] 5
          [kaliber; skladanka; molesta] 1991 2024 "")
  = fmap fst (generate_discover_list Literal.engine Lcg.generator 5
                [kaliber; skladanka; molesta] 1991 2024 "").
Proof.
  destruct (cached_generate_discover_list_transparent Literal.engine
              Lcg.generator) as [Hnil H].
  exact (proj1 (H [] 5 [kaliber; skladanka; molesta] 1991 2024 "" Hnil)).
Defined.

(** ** The discovery tab *)

(** X17.  Pressing the button never ends in an exception (for a generator
    that draws without replacement, patterns that compile and a cache as
    in X16): the tab shows the warning exactly when no record matches the
    years and the label text, and otherwise a calendar of five rows; the
    catalog and the loader's frame are left as they were. *)
Theorem discover_tab_outcome :
  forall (re : ReEngine) (rng : Generator) (env : Env (RandomState rng))
         (start_year end_year : Z) (label_filter : string) (today : Z),
    without_replacement rng ->
    discover_patterns_valid re label_filter = true ->
    cache_consistent re rng (discover_cache env) ->
    exists env' view,
      exec re rng (Discover start_year end_year label_filter today) env
      = Ok (env', view)
      /\ data env' = data env /\ memo env' = memo env
      /\ (view = Warning
          <-> filter (discover_match re start_year end_year label_filter)
                     (data env) = [])
      /\ (view <> Warning ->
          exists weeks, view = Calendar weeks /\ length weeks = 5%nat).
Proof.
  intros re rng env sy ey lf today law Hvalid Hc.
  destruct (@generate_discover_list_positions re rng (np_random env) (data env)
              sy ey lf law Hvalid)
    as [selection [positions [Hrun [Hlen [_ Hrows]]]]].
  apply Forall2_length in Hrows. rewrite Hlen in Hrows.
  pose proof (@cached_equals_function re rng (discover_cache env) (np_random env)
                (data env) sy ey lf Hc) as Hsame.
  rewrite Hrun in Hsame. simpl in Hsame.
  unfold exec.
  destruct (cached_generate_discover_list re rng (discover_cache env)
              (np_random env) (data env) sy ey lf) as [[[sel c'] g'] | e];
    [| discriminate Hsame].
  simpl in Hsame. injection Hsame as ->. cbn [bind fst snd].
  set (matching := filter (discover_match re sy ey lf) (data env)) in *.
  destruct selection as [| r selection].
  - do 2 eexists. split; [reflexivity |]. simpl. repeat split; auto.
    + intros _. destruct matching; [reflexivity | discriminate Hrows].
    + intros H. contradiction.
  - rewrite create_interactive_calendar_rows. cbn [bind fst snd].
    do 2 eexists. split; [reflexivity |]. simpl. repeat split.
    + discriminate.
    + intros E. rewrite E in Hrows. discriminate Hrows.
    + intros _. eexists. split; reflexivity.
Qed.

Lemma discover_tab_outcome_witness :
  without_replacement Lcg.generator
  /\ exists env' view,
       exec Literal.engine Lcg.generator (Discover 2010 2024 "" 9000)
            (@mkEnv Z [kaliber; molesta] [kaliber; molesta] [] 5)
       = Ok (env', view)
       /\ view = Warning.
Proof.
  split; [exact Lcg_without_replacement |].
  destruct (@discover_tab_outcome Literal.engine Lcg.generator
              (@mkEnv Z [kaliber; molesta] [kaliber; molesta] [] 5)
              2010 2024 "" 9000 Lcg_without_replacement eq_refl
              (cache_consistent_nil Literal.engine Lcg.generator))
    as [env' [view [Hrun [_ [_ [Hw _]]]]]].
  exists env', view. split; [exact Hrun |].
  apply Hw. vm_compute. reflexivity.
Defined.

(** ** Decades *)

Lemma decade_column_assigned (data : DataFrame) :
  decade_column (assign_decade data) = map (fun r => decade_of (year r)) data.
Proof.
  unfold decade_column. rewrite assign_decade_rows, map_map. reflexivity.
Qed.

Lemma decade_of_bounds (v d : Z) :
  decade_of (Some v) = Some d <-> d mod 10 = 0 /\ d <= v <= d + 9.
Proof.
  unfold decade_of. simpl. split.
  - intros H. injection H as <-. Z.div_mod_to_equations. lia.
  - intros [Hm Hv]. f_equal. Z.div_mod_to_equations. lia.
Qed.



Lemma count_occ_absent (a : Z) (l keys : list Z) :
  ~ In a keys ->
  map (count_occ Z.eq_dec (a :: l)) keys = map (count_occ Z.eq_dec l) keys.
Proof.
  intros Hk. apply map_ext_in. intros k Hin.
  apply count_occ_cons_neq. intros E. subst k. contradiction.
Qed.

Lemma count_occ_first (a : Z) (l keys : list Z) :
  NoDup keys -> In a keys ->
  total (map (count_occ Z.eq_dec (a :: l)) keys)
  = S (total (map (count_occ Z.eq_dec l) keys)).
Proof.
  intros Hnd; induction Hnd as [| k keys Hk Hnd IH]; intros Hin.
  - destruct Hin.
  - cbn [map total fold_right].
    fold (total (map (count_occ Z.eq_dec (a :: l)) keys)).
    fold (total (map (count_occ Z.eq_dec l) keys)).
    destruct (Z.eq_dec a k) as [E | E].
    + subst k. rewrite count_occ_cons_eq by reflexivity.
      rewrite (@count_occ_absent a l keys Hk). reflexivity.
    + rewrite count_occ_cons_neq by exact E.
      destruct Hin as [Hin | Hin]; [congruence |].
      rewrite (IH Hin). lia.
Qed.

Lemma count_occ_total (l keys : list Z) :
  NoDup keys -> incl l keys ->
  total (map (count_occ Z.eq_dec l) keys) = length l.
Proof.
  intros Hnd. induction l as [| a l IH]; intros Hincl.
  - clear Hnd Hincl. induction keys as [| k keys IHk]; [reflexivity |].
    unfold total in *. simpl. exact IHk.
  - rewrite count_occ_first; [| exact Hnd | apply Hincl; left; reflexivity].
    simpl. f_equal. apply IH. intros x Hx. apply Hincl. right. exact Hx.
Qed.

Lemma dropna_decades (data : DataFrame) :
  length (dropna (map (fun r => decade_of (year r)) data))
  = length (filter (fun r => present (year r)) data).
Proof.
  induction data as [| r data IH]; simpl; [reflexivity |].
  destruct (year r); simpl; congruence.
Qed.

Lemma count_occ_decade (data : DataFrame) (d : Z) :
  d mod 10 = 0 ->
  count_occ Z.eq_dec (dropna (map (fun r => decade_of (year r)) data)) d
  = length (filter (fun r => in_range (year r) d (d + 9)) data).
Proof.
  intros Hd. induction data as [| r data IH]; simpl; [reflexivity |].
  destruct (year r) as [v |] eqn:Ey; simpl; [| exact IH].
  destruct (in_range (Some v) d (d + 9)) eqn:Er.
  - apply in_range_spec in Er as [w [E Hw]]. injection E as <-.
    destruct (Z.eq_dec (v / 10 * 10) d) as [_ | Hne].
    + simpl. f_equal. exact IH.
    + exfalso. apply Hne.
      assert (H : decade_of (Some v) = Some d) by (apply decade_of_bounds; auto).
      injection H as H. exact H.
  - destruct (Z.eq_dec (v / 10 * 10) d) as [E | _]; [| exact IH].
    exfalso.
    assert (H : decade_of (Some v) = Some d) by (unfold decade_of; simpl; congruence).
    apply decade_of_bounds in H as [_ H].
    assert (Hr : in_range (Some v) d (d + 9) = true)
      by (apply in_range_spec; exists v; auto).
    congruence.
Qed.

(** X19.  The bars of the decade chart (lines 139-147): the decades are
    multiples of ten in ascending order, none twice; the bar of a decade
    counts the records whose year lies in that decade, and is never zero;
    all bars together count each record with a known year once, and the
    records without a year not at all. *)
Theorem decade_counts_bars :
  forall (data : DataFrame),
    StronglySorted Z.lt (map fst (decade_counts data))
    /\ (forall d n, In (d, n) (decade_counts data) ->
          d mod 10 = 0
          /\ n = length (filter (fun r => in_range (year r) d (d + 9)) data)
          /\ (1 <= n)%nat)
    /\ total (map snd (decade_counts data))
       = length (filter (fun r => present (year r)) data).
Proof.
  intros data. unfold decade_counts, value_counts_sort_index.
  rewrite decade_column_assigned.
  set (c := map (fun r => decade_of (year r)) data).
  rewrite !map_map. simpl. rewrite map_id. split; [| split].
  - apply group_keys_sorted.
  - intros d n Hin. apply in_map_iff in Hin as [d' [E Hd]].
    injection E as -> <-.
    apply group_keys_In in Hd. unfold c in Hd.
    apply in_map_iff in Hd as [r [Hr Hin]].
    destruct (year r) as [v |] eqn:Ey; [| discriminate Hr].
    apply decade_of_bounds in Hr as [Hm Hv].
    split; [exact Hm |]. unfold c. rewrite (@count_occ_decade data d Hm).
    split; [reflexivity |].
    assert (Hf : In r (filter (fun r => in_range (year r) d (d + 9)) data)).
    { apply filter_In. split; [exact Hin |]. rewrite Ey.
      apply in_range_spec. exists v. auto. }
    destruct (filter (fun r => in_range (year r) d (d + 9)) data);
      [destruct Hf | simpl; lia].
  - transitivity (length (dropna c)); [| apply dropna_decades].
    apply (@count_occ_total (dropna c) (group_keys c)).
    + apply sorted_NoDup, group_keys_sorted.
    + intros k Hk. apply group_keys_In, dropna_In. exact Hk.
Qed.

Lemma decade_counts_bars_witness :
  decade_counts [paktofonika; kaliber; no_year; molesta]
  = [(1990, 2%nat); (2000, 1%nat)]
  /\ 1990 mod 10 = 0
  /\ 2%nat = length (filter (fun r => in_range (year r) 1990 (1990 + 9))
                            [paktofonika; kaliber; no_year; molesta])
  /\ (1 <= 2)%nat.
Proof.
  split; [vm_compute; reflexivity |].
  apply (proj1 (proj2 (decade_counts_bars [paktofonika; kaliber; no_year; molesta]))
           1990 2%nat).
  vm_compute. left. reflexivity.
Defined.

Lemma filter_map_commute {A B : Type} (f : A -> B) (p : B -> bool) (l : list A) :
  filter p (map f l) = map f (filter (fun a => p (f a)) l).
Proof.
  induction l as [| a l IH]; simpl; [reflexivity |].
  destruct (p (f a)); simpl; congruence.
Qed.

Lemma filtered_stats_invalid (re : ReEngine) (data : DataFrame) (range : Z * Z) :
  re_valid re "Various" && re_valid re "Dee Jay Mix Club|Nielegal" = false ->
  filtered_stats re data range = Raise ReError.
Proof.
  unfold filtered_stats, str_contains. intros H.
  destruct (re_valid re "Various"); [| reflexivity].
  destruct (re_valid re "Dee Jay Mix Club|Nielegal"); [discriminate | reflexivity].
Qed.

(** X20.  The filtered decade chart (line 193) is the decade chart of the
    filtered records: filtering the frame that already holds the decade
    column and counting its decades gives the bars that assigning and
    counting decades gives on the filtered catalog, and the same exception
    when a fixed pattern does not compile. *)
Theorem filtered_decade_counts_commute :
  forall (re : ReEngine) (data : DataFrame) (filter_year_range : Z * Z),
    filtered_decade_counts re data filter_year_range
    = fmap decade_counts (filtered_stats re data filter_year_range).
Proof.
  intros re data range. unfold filtered_decade_counts.
  destruct (re_valid re "Various" && re_valid re "Dee Jay Mix Club|Nielegal")
    eqn:E.
  - apply andb_true_iff in E as [Hv Hb].
    rewrite !(@filtered_stats_rows re _ range Hv Hb). cbn [bind fmap].
    unfold decade_counts.
    replace (filter (discover_match re (fst range) (snd range) "")
                    (assign_decade data))
      with (assign_decade
              (filter (discover_match re (fst range) (snd range) "") data));
      [reflexivity |].
    rewrite !assign_decade_rows, filter_map_commute. f_equal.
  - rewrite !(@filtered_stats_invalid re _ range E). reflexivity.
Qed.

(** ** The bounds of the year slider *)

Lemma fold_min_spec (v : Z) (vs : list Z) :
  In (fold_right Z.min v vs) (v :: vs)
  /\ forall x, In x (v :: vs) -> fold_right Z.min v vs <= x.
Proof.
  induction vs as [| w vs [IHin IHle]]; simpl.
  - split; [left; reflexivity | intros x [<- | []]; lia].
  - split.
    + destruct (Z.min_spec w (fold_right Z.min v vs)) as [[_ ->] | [_ ->]].
      * right. left. reflexivity.
      * destruct IHin as [E | Hin]; [left; exact E | right; right; exact Hin].
    + intros x [<- | [<- | Hx]].
      * specialize (IHle v (or_introl eq_refl)). lia.
      * lia.
      * specialize (IHle x (or_intror Hx)). lia.
Qed.

Lemma fold_max_spec (v : Z) (vs : list Z) :
  In (fold_right Z.max v vs) (v :: vs)
  /\ forall x, In x (v :: vs) -> x <= fold_right Z.max v vs.
Proof.
  induction vs as [| w vs [IHin IHle]]; simpl.
  - split; [left; reflexivity | intros x [<- | []]; lia].
  - split.
    + destruct (Z.max_spec w (fold_right Z.max v vs)) as [[_ ->] | [_ ->]].
      * destruct IHin as [E | Hin]; [left; exact E | right; right; exact Hin].
      * right. left. reflexivity.
    + intros x [<- | [<- | Hx]].
      * specialize (IHle v (or_introl eq_refl)). lia.
      * lia.
      * specialize (IHle x (or_intror Hx)). lia.
Qed.

Lemma dropna_years (data : DataFrame) (v : Z) :
  In v (dropna (col year data)) <-> exists r, In r data /\ year r = Some v.
Proof.
  rewrite dropna_In. unfold col. rewrite in_map_iff.
  split; intros [r [H1 H2]]; exists r; auto.
Qed.

(** X21.  The year slider of the statistics tab (line 184).  On a catalog
    without any known year, the empty catalog included, the script raises
    there.  Otherwise the slider runs from the smallest to the largest
    year of the catalog: both occur in it and every known year lies
    between them; the initial range is always 1990 to 2024, whatever the
    catalog holds. *)
Theorem stats_year_slider_bounds :
  forall (data : DataFrame),
    ((exists e, stats_year_slider data = Raise e)
     <-> forall r, In r data -> year r = None)
    /\ forall lowest highest initial,
         stats_year_slider data = Ok (lowest, highest, initial) ->
         initial = (1990, 2024)
         /\ (exists r, In r data /\ year r = Some lowest)
         /\ (exists r, In r data /\ year r = Some highest)
         /\ forall r v, In r data -> year r = Some v -> lowest <= v <= highest.
Proof.
  intros data. unfold stats_year_slider, series_min, series_max.
  pose proof (dropna_years data) as Hy.
  destruct (dropna (col year data)) as [| v vs]; simpl.
  - split.
    + split.
      * intros _ r Hr. destruct (year r) as [w |] eqn:E; [| reflexivity].
        exfalso. apply (proj2 (Hy w)). exists r. auto.
      * intros _. exists ValueError. reflexivity.
    + intros lowest highest initial H. discriminate H.
  - destruct (fold_min_spec v vs) as [Hmin_in Hmin].
    destruct (fold_max_spec v vs) as [Hmax_in Hmax]. split.
    + split.
      * intros [e H]. discriminate H.
      * intros Hnone. exfalso.
        destruct (proj1 (Hy v) (or_introl eq_refl)) as [r [Hr E]].
        rewrite (Hnone r Hr) in E. discriminate E.
    + intros lowest highest initial H. injection H as <- <- <-.
      split; [reflexivity |].
      split; [apply Hy; exact Hmin_in |].
      split; [apply Hy; exact Hmax_in |].
      intros r w Hr E.
      assert (Hw : In w (v :: vs)) by (apply Hy; exists r; auto).
      split; [apply Hmin | apply Hmax]; exact Hw.
Qed.

Lemma stats_year_slider_bounds_witness :
  stats_year_slider [kaliber; no_year; paktofonika; molesta]
  = Ok (1996, 2000, (1990, 2024))
  /\ (exists e, stats_year_slider [no_year] = Raise e)
  /\ 1996 <= 1998 <= 2000.
Proof.
  split; [reflexivity |]. split.
  - apply (proj2 (proj1 (stats_year_slider_bounds [no_year]))).
    intros r [<- | []]. reflexivity.
  - destruct (proj2 (stats_year_slider_bounds
                       [kaliber; no_year; paktofonika; molesta])
                    1996 2000 (1990, 2024) eq_refl) as [_ [_ [_ H]]].
    apply (H molesta 1998); [right; right; right; left |]; reflexivity.
Defined.

(** ** The averages again *)

Lemma sum_between (lo hi : Z) (l : list Z) :
  (forall x, In x l -> lo <= x <= hi) ->
  lo * Z.of_nat (length l) <= sum l <= hi * Z.of_nat (length l).
Proof.
  induction l as [| x l IH]; intros H.
  - simpl. lia.
  - assert (Hx : lo <= x <= hi) by (apply H; left; reflexivity).
    assert (Hl : lo * Z.of_nat (length l) <= sum l <= hi * Z.of_nat (length l))
      by (apply IH; intros y Hy; apply H; right; exact Hy).
    change (sum (x :: l)) with (x + sum l).
    change (length (x :: l)) with (S (length l)).
    rewrite Nat2Z.inj_succ. lia.
Qed.

Lemma mean_Some (c : list (option Z)) (q : Q) :
  mean c = Some q ->
  exists v vs, dropna c = v :: vs
               /\ q = Qmake (sum (v :: vs)) (Pos.of_nat (length (v :: vs))).
Proof.
  unfold mean. destruct (dropna c) as [| v vs]; [discriminate |].
  intros H. injection H as <-. exists v, vs. auto.
Qed.

(** X22.  An average of the chart of line 161 is never outside what it
    averages: when a year has an average, some record of that year has a
    track count at or below it and some record of that year has one at or
    above it. *)
Theorem avg_tracks_per_year_between :
  forall (data : DataFrame) (y : Z) (q : Q),
    In (y, Some q) (avg_tracks_per_year data) ->
    exists (ra rb : Row) (a b : Z),
      In ra data /\ year ra = Some y /\ track_count ra = Some a
      /\ In rb data /\ year rb = Some y /\ track_count rb = Some b
      /\ (inject_Z a <= q)%Q /\ (q <= inject_Z b)%Q.
Proof.
  intros data y q Hin. unfold avg_tracks_per_year in Hin.
  apply in_map_iff in Hin as [y' [E _]]. injection E as -> Hq.
  apply mean_Some in Hq as [v [vs [Hd ->]]].
  destruct (fold_min_spec v vs) as [Hmin_in Hmin].
  destruct (fold_max_spec v vs) as [Hmax_in Hmax].
  assert (Hrow : forall x, In x (v :: vs) ->
            exists r, In r data /\ year r = Some y /\ track_count r = Some x).
  { intros x Hx. rewrite <- Hd in Hx. apply dropna_In in Hx.
    unfold col in Hx. apply in_map_iff in Hx as [r [Ht Hr]].
    apply filter_In in Hr as [Hr Hy]. apply year_is_spec in Hy.
    exists r. auto. }
  destruct (Hrow _ Hmin_in) as [ra [Ha1 [Ha2 Ha3]]].
  destruct (Hrow _ Hmax_in) as [rb [Hb1 [Hb2 Hb3]]].
  exists ra, rb, (fold_right Z.min v vs), (fold_right Z.max v vs).
  repeat (split; [assumption |]).
  pose proof (@sum_between (fold_right Z.min v vs) (fold_right Z.max v vs)
                (v :: vs) (fun x Hx => conj (Hmin x Hx) (Hmax x Hx))) as Hs.
  assert (Hp : Z.pos (Pos.of_nat (length (v :: vs))) = Z.of_nat (length (v :: vs))).
  { rewrite <- positive_nat_Z, Nat2Pos.id; [reflexivity | discriminate]. }
  unfold Qle, inject_Z; cbn [Qnum Qden]. rewrite Hp. lia.
Qed.

Lemma avg_tracks_per_year_between_witness :
  In (1996, Some (Qmake 37 2))
     (avg_tracks_per_year
        [kaliber; no_count 1996;
         album "Wzgorze Ya-Pa 3" "Wzgorze Ya-Pa 3" 1996 "S.P. Records" 20
               "Langusta"; molesta])
  /\ exists (ra rb : Row) (a b : Z),
       track_count ra = Some a /\ track_count rb = Some b
       /\ (inject_Z a <= Qmake 37 2)%Q /\ (Qmake 37 2 <= inject_Z b)%Q.
Proof.
  assert (Hin : In (1996, Some (Qmake 37 2))
     (avg_tracks_per_year
        [kaliber; no_count 1996;
         album "Wzgorze Ya-Pa 3" "Wzgorze Ya-Pa 3" 1996 "S.P. Records" 20
               "Langusta"; molesta]))
    by (vm_compute; left; reflexivity).
  split; [exact Hin |].
  destruct (avg_tracks_per_year_between _ _ _ Hin)
    as [ra [rb [a [b [_ [_ [Ha [_ [_ [Hb [Hle Hge]]]]]]]]]]].
  exists ra, rb, a, b. auto.
Defined.
